(** * Gemini Runner: the language store and the PWA install advisor

    A shallow embedding of [i18n] (the persisted zustand language store) and
    of the [PWAInstallPrompt] component (platform classifier, mount effect,
    listeners, timers and the dismissal cooldown), followed by the properties
    the specification states about them.

    Conventions of the embedding:
    - JavaScript strings are [string]s, byte sequences holding the UTF-8 form
      of the text.  Every regular
      expression of the source is an alternation of ASCII literals, so a
      [RegExp.test] is a substring search; with the [i] flag an ASCII letter
      matches exactly its two ASCII cases (a non-Unicode pattern never maps a
      character above 127 to one below), hence the search is done on the
      ASCII-lowercased strings.
    - JavaScript numbers that hold times are [Z]: [Date.now()] is an integer
      far below 2^53 in magnitude, where double arithmetic is exact.
    - [localStorage] and the dictionaries are [gmap string string]. *)

From Stdlib Require Import ZArith Lia Bool List Ascii String.
From Stdlib Require Import Decimal DecimalString DecimalPos.
From stdpp Require Import base option gmap strings list fin_maps.

Local Open Scope string_scope.
Local Open Scope Z_scope.

(** ** JavaScript built-ins used by the sources *)

Module Js.

(** [s.includes(pat)]: is [pat] a substring of [s]? *)
Fixpoint includes (pat s : string) : bool :=
  String.prefix pat s ||
  match s with
  | EmptyString => false
  | String _ s' => includes pat s'
  end.

Definition lower_ascii (c : ascii) : ascii :=
  let n := N_of_ascii c in
  if ((65 <=? n) && (n <=? 90))%N then ascii_of_N (n + 32) else c.

Fixpoint lower (s : string) : string :=
  match s with
  | EmptyString => EmptyString
  | String c s' => String (lower_ascii c) (lower s')
  end.

(** [/a|b|c/.test(s)] *)
Definition test (alts : list string) (s : string) : bool :=
  existsb (fun pat => includes pat s) alts.

(** [/a|b|c/i.test(s)] *)
Definition test_i (alts : list string) (s : string) : bool :=
  existsb (fun pat => includes (lower pat) (lower s)) alts.

(** JavaScript truthiness of a string-or-null / string-or-undefined value:
    [null], [undefined] and the empty string are falsy. *)
Definition truthy (v : option string) : bool :=
  match v with
  | Some s => negb (String.eqb s "")
  | None => false
  end.

(** [a || b] on string-or-undefined operands. *)
Definition or_else (a b : option string) : option string :=
  if truthy a then a else b.

(** *** [Number.prototype.toString] on an integer time value *)

Definition toString (z : Z) : string :=
  match z with
  | Z0 => "0"
  | Zpos p => NilEmpty.string_of_uint (Pos.to_uint p)
  | Zneg p => String "-" (NilEmpty.string_of_uint (Pos.to_uint p))
  end.

(** *** [parseInt(s)] with no radix argument

    Leading white space is skipped, then an optional sign, then an optional
    [0x]/[0X] prefix selecting radix 16 (radix 10 otherwise), then the
    longest run of digits of that radix; anything after it is ignored.
    [None] stands for [NaN] (no digit at all).

    White space is what [parseInt] trims: TAB, LF, VT, FF, CR, SP, and,
    beyond ASCII, U+00A0, U+1680, U+2000 to U+200A, U+2028, U+2029, U+202F,
    U+205F, U+3000 and U+FEFF, here in their UTF-8 form of two or three
    bytes. *)

(** TAB, LF, VT, FF, CR, SP. *)
Definition is_space (c : ascii) : bool :=
  let n := N_of_ascii c in
  ((9 <=? n) && (n <=? 13) || (n =? 32))%N.

(** The first byte of a white space character of several bytes. *)
Definition is_space_lead (c : ascii) : bool :=
  let n := N_of_ascii c in
  ((n =? 194) || (n =? 225) || (n =? 226) || (n =? 227) || (n =? 239))%N.

(** U+00A0 is [C2 A0]. *)
Definition is_space2 (c1 c2 : ascii) : bool :=
  ((N_of_ascii c1 =? 194) && (N_of_ascii c2 =? 160))%N.

(** U+1680 is [E1 9A 80]; U+2000 to U+200A are [E2 80 80] to [E2 80 8A];
    U+2028, U+2029 and U+202F are [E2 80 A8], [E2 80 A9] and [E2 80 AF];
    U+205F is [E2 81 9F]; U+3000 is [E3 80 80]; U+FEFF is [EF BB BF]. *)
Definition is_space3 (c1 c2 c3 : ascii) : bool :=
  let n1 := N_of_ascii c1 in
  let n2 := N_of_ascii c2 in
  let n3 := N_of_ascii c3 in
  ((n1 =? 225) && (n2 =? 154) && (n3 =? 128)
   || (n1 =? 226) && (n2 =? 128)
      && ((128 <=? n3) && (n3 <=? 138) || (n3 =? 168) || (n3 =? 169)
          || (n3 =? 175))
   || (n1 =? 226) && (n2 =? 129) && (n3 =? 159)
   || (n1 =? 227) && (n2 =? 128) && (n3 =? 128)
   || (n1 =? 239) && (n2 =? 187) && (n3 =? 191))%N.

Fixpoint skip_space (s : string) : string :=
  match s with
  | String c1 s1 =>
      if is_space c1 then skip_space s1
      else if is_space_lead c1 then
        match s1 with
        | String c2 s2 =>
            if is_space2 c1 c2 then skip_space s2
            else
              match s2 with
              | String c3 s3 =>
                  if is_space3 c1 c2 c3 then skip_space s3 else s
              | EmptyString => s
              end
        | EmptyString => s
        end
      else s
  | EmptyString => EmptyString
  end.

Definition digit_value (radix : Z) (c : ascii) : option Z :=
  let n := Z.of_N (N_of_ascii c) in
  let v :=
    if (48 <=? n) && (n <=? 57) then Some (n - 48)
    else if (97 <=? n) && (n <=? 122) then Some (n - 87)
    else if (65 <=? n) && (n <=? 90) then Some (n - 55)
    else None in
  match v with
  | Some d => if d <? radix then Some d else None
  | None => None
  end.

(** The digits read so far are in [acc]; [seen] tells whether there was one. *)
Fixpoint digits (radix : Z) (s : string) (acc : Z) (seen : bool) : option Z :=
  match s with
  | String c s' =>
      match digit_value radix c with
      | Some d => digits radix s' (acc * radix + d) true
      | None => if seen then Some acc else None
      end
  | EmptyString => if seen then Some acc else None
  end.

Definition unsigned (s : string) : option Z :=
  match s with
  | String "0" (String "x" s') => digits 16 s' 0 false
  | String "0" (String "X" s') => digits 16 s' 0 false
  | _ => digits 10 s 0 false
  end.

Definition parseInt (s : string) : option Z :=
  match skip_space s with
  | String "-" s' => Z.opp <$> unsigned s'
  | String "+" s' => unsigned s'
  | s' => unsigned s'
  end.

(** [a - b < c] where [b] may be [NaN]: a comparison with [NaN] is false. *)
Definition sub_lt (a : Z) (b : option Z) (c : Z) : bool :=
  match b with
  | Some b => a - b <? c
  | None => false
  end.

End Js.

(** ** The install advisor: [PWAInstallPrompt.tsx] *)

Inductive PromptType : Set :=
  | PNone            (* 'none' *)
  | Native           (* 'native' *)
  | IosSafari        (* 'ios-safari' *)
  | IosOther         (* 'ios-other' *)
  | Wechat           (* 'wechat' *)
  | AndroidFallback. (* 'android-fallback' *)

#[global] Instance PromptType_eq_dec : EqDecision PromptType.
Proof. solve_decision. Defined.

(** What the component reads from [navigator] and [window]. *)
Record Env : Type := {
  userAgent : string;                 (* navigator.userAgent *)
  displayMode : bool;                 (* matchMedia('(display-mode: standalone)').matches *)
  navStandalone : option bool;        (* navigator.standalone, [None] when undefined *)
  platform : string;                  (* navigator.platform *)
  maxTouchPoints : Z                  (* navigator.maxTouchPoints *)
}.

Module Detected.
Record t : Set := { promptType : PromptType; isStandalone : bool }.
End Detected.

Definition ios_tokens : list string := ["iPad"; "iPhone"; "iPod"].
Definition in_app_tokens : list string :=
  ["MicroMessenger"; "QQ/"; "wxwork"; "DingTalk"; "Weibo"].
Definition other_browser_tokens : list string :=
  ["Chrome"; "CriOS"; "FxiOS"; "EdgiOS"; "OPiOS"].

Definition isStandaloneEnv (e : Env) : bool :=
  displayMode e || bool_decide (navStandalone e = Some true).

Definition isIOS (e : Env) : bool :=
  Js.test ios_tokens (userAgent e)
  || (String.eqb (platform e) "MacIntel" && (1 <? maxTouchPoints e)).

Definition isInApp (e : Env) : bool := Js.test_i in_app_tokens (userAgent e).

Definition isSafari (e : Env) : bool :=
  Js.test ["Safari"] (userAgent e)
  && negb (Js.test other_browser_tokens (userAgent e)).

Definition detectPlatform (e : Env) : Detected.t :=
  if isStandaloneEnv e then
    {| Detected.promptType := PNone; Detected.isStandalone := true |}
  else if isInApp e then
    {| Detected.promptType := Wechat; Detected.isStandalone := false |}
  else if isIOS e then
    if isSafari e then
      {| Detected.promptType := IosSafari; Detected.isStandalone := false |}
    else
      {| Detected.promptType := IosOther; Detected.isStandalone := false |}
  else
    {| Detected.promptType := Native; Detected.isStandalone := false |}.

(** *** The browser window and the component instance *)

Definition DISMISS_KEY : string := "pwa-install-dismissed".

(** [24 * 60 * 60 * 1000] milliseconds. *)
Definition COOLDOWN : Z := 24 * 60 * 60 * 1000.

(** The [BeforeInstallPromptEvent] object, opaque to the component. *)
Definition Handle : Set := nat.

Inductive EventName : Set :=
  | beforeinstallprompt
  | appinstalled.

(** The two closures the effect hands to [setTimeout]. *)
Inductive Callback : Set :=
  | ShowPrompt      (* () => setVisible(true) *)
  | FallbackCheck.  (* () => { if (!nativeFired) { ... } } *)

Record Timer : Set := { timerId : nat; due : Z; callback : Callback }.

(** Calls into the platform, recorded in program order. *)
Inductive Call : Set :=
  | CallDetectPlatform
  | CallGetItem (key : string)
  | CallSetItem (key value : string)
  | CallDateNow
  | CallSetTimeout (cb : Callback) (delay : Z)
  | CallClearTimeout (id : nat)
  | CallAddEventListener (name : EventName)
  | CallRemoveEventListener (name : EventName).

(** The three [useState] cells. *)
Record Hooks : Set := {
  deferredPrompt : option Handle;
  visible : bool;
  promptType : PromptType
}.

(** Variables captured by the closures of the effect. *)
Record Closure : Set := {
  nativeFired : bool;
  fallbackTimer : option nat;
  hasCleanup : bool    (* the effect returned a cleanup function *)
}.

Record Window : Type := {
  onBeforeInstallPrompt : bool;  (* [handler] is registered *)
  onAppInstalled : bool;         (* the anonymous listener is registered *)
  timers : list Timer;           (* pending timeouts *)
  nextTimerId : nat;
  now : Z;                       (* Date.now(), milliseconds *)
  localStorage : gmap string string;
  calls : list Call              (* oldest first *)
}.

Record Session : Type := {
  hooks : Hooks;
  closure : Closure;
  window : Window;
  mounted : bool;
  awaitingChoice : bool   (* [handleInstall] is suspended at an [await] *)
}.

(** A state monad over the session. *)
Definition M (A : Type) : Type := Session -> A * Session.

Definition ret {A} (a : A) : M A := fun s => (a, s).
Definition bind {A B} (m : M A) (k : A -> M B) : M B :=
  fun s => let '(a, s') := m s in k a s'.
Definition exec {A} (m : M A) (s : Session) : Session := snd (m s).

Declare Scope session_scope.
Delimit Scope session_scope with M.
Notation "'let*' x ':=' m 'in' k" := (bind m (fun x => k))
  (at level 10, x name, m at level 100, k at level 200) : session_scope.
Notation "m ';;' k" := (bind m (fun _ => k))
  (at level 100, k at level 200, right associativity) : session_scope.

Definition modify_hooks (f : Hooks -> Hooks) : M unit := fun s =>
  (tt, {| hooks := f (hooks s); closure := closure s; window := window s;
          mounted := mounted s; awaitingChoice := awaitingChoice s |}).
Definition modify_closure (f : Closure -> Closure) : M unit := fun s =>
  (tt, {| hooks := hooks s; closure := f (closure s); window := window s;
          mounted := mounted s; awaitingChoice := awaitingChoice s |}).
Definition modify_window (f : Window -> Window) : M unit := fun s =>
  (tt, {| hooks := hooks s; closure := closure s; window := f (window s);
          mounted := mounted s; awaitingChoice := awaitingChoice s |}).
Definition set_mounted (b : bool) : M unit := fun s =>
  (tt, {| hooks := hooks s; closure := closure s; window := window s;
          mounted := b; awaitingChoice := awaitingChoice s |}).
Definition set_awaitingChoice (b : bool) : M unit := fun s =>
  (tt, {| hooks := hooks s; closure := closure s; window := window s;
          mounted := mounted s; awaitingChoice := b |}).

Definition log (c : Call) (w : Window) : Window :=
  {| onBeforeInstallPrompt := onBeforeInstallPrompt w;
     onAppInstalled := onAppInstalled w; timers := timers w;
     nextTimerId := nextTimerId w; now := now w;
     localStorage := localStorage w; calls := calls w ++ [c] |}.

(** React drops a state update aimed at a component that is no longer
    mounted, so the three setters do nothing after unmount. *)
Definition setState (f : Hooks -> Hooks) : M unit := fun s =>
  if mounted s then modify_hooks f s else (tt, s).

Definition setDeferredPrompt (h : option Handle) : M unit :=
  setState (fun k => {| deferredPrompt := h; visible := visible k;
                        promptType := promptType k |}).
Definition setVisible (b : bool) : M unit :=
  setState (fun k => {| deferredPrompt := deferredPrompt k; visible := b;
                        promptType := promptType k |}).
Definition setPromptType (p : PromptType) : M unit :=
  setState (fun k => {| deferredPrompt := deferredPrompt k;
                        visible := visible k; promptType := p |}).

Definition set_nativeFired (b : bool) : M unit :=
  modify_closure (fun c => {| nativeFired := b;
                              fallbackTimer := fallbackTimer c;
                              hasCleanup := hasCleanup c |}).
Definition set_fallbackTimer (t : option nat) : M unit :=
  modify_closure (fun c => {| nativeFired := nativeFired c;
                              fallbackTimer := t;
                              hasCleanup := hasCleanup c |}).
Definition set_hasCleanup (b : bool) : M unit :=
  modify_closure (fun c => {| nativeFired := nativeFired c;
                              fallbackTimer := fallbackTimer c;
                              hasCleanup := b |}).

Definition getItem (key : string) : M (option string) := fun s =>
  (localStorage (window s) !! key, exec (modify_window (log (CallGetItem key))) s).

Definition setItem (key value : string) : M unit :=
  modify_window (fun w =>
    let w := log (CallSetItem key value) w in
    {| onBeforeInstallPrompt := onBeforeInstallPrompt w;
       onAppInstalled := onAppInstalled w; timers := timers w;
       nextTimerId := nextTimerId w; now := now w;
       localStorage := <[key := value]> (localStorage w);
       calls := calls w |}).

Definition dateNow : M Z := fun s =>
  (now (window s), exec (modify_window (log CallDateNow)) s).

Definition setTimeout (cb : Callback) (delay : Z) : M nat := fun s =>
  let id := nextTimerId (window s) in
  (id, exec (modify_window (fun w =>
    let w := log (CallSetTimeout cb delay) w in
    {| onBeforeInstallPrompt := onBeforeInstallPrompt w;
       onAppInstalled := onAppInstalled w;
       timers := timers w ++ [{| timerId := id; due := now w + delay;
                                 callback := cb |}];
       nextTimerId := S id; now := now w;
       localStorage := localStorage w; calls := calls w |})) s).

Definition clearTimeout (id : nat) : M unit :=
  modify_window (fun w =>
    let w := log (CallClearTimeout id) w in
    {| onBeforeInstallPrompt := onBeforeInstallPrompt w;
       onAppInstalled := onAppInstalled w;
       timers := List.filter (fun t => negb (Nat.eqb (timerId t) id)) (timers w);
       nextTimerId := nextTimerId w; now := now w;
       localStorage := localStorage w; calls := calls w |}).

Definition set_listener (name : EventName) (b : bool) (w : Window) : Window :=
  {| onBeforeInstallPrompt :=
       match name with beforeinstallprompt => b
                     | appinstalled => onBeforeInstallPrompt w end;
     onAppInstalled :=
       match name with appinstalled => b
                     | beforeinstallprompt => onAppInstalled w end;
     timers := timers w; nextTimerId := nextTimerId w; now := now w;
     localStorage := localStorage w; calls := calls w |}.

Definition addEventListener (name : EventName) : M unit :=
  modify_window (fun w => set_listener name true (log (CallAddEventListener name) w)).
Definition removeEventListener (name : EventName) : M unit :=
  modify_window (fun w => set_listener name false (log (CallRemoveEventListener name) w)).

Definition callDetectPlatform (e : Env) : M Detected.t := fun s =>
  (detectPlatform e, exec (modify_window (log CallDetectPlatform)) s).

(** *** The component: [PWAInstallPrompt] *)

(** [useState(null)], [useState(false)], [useState('none')], in a window whose
    clock shows [t] and whose storage is [ls]. *)
Definition initial (t : Z) (ls : gmap string string) : Session :=
  {| hooks := {| deferredPrompt := None; visible := false; promptType := PNone |};
     closure := {| nativeFired := false; fallbackTimer := None;
                   hasCleanup := false |};
     window := {| onBeforeInstallPrompt := false; onAppInstalled := false;
                  timers := []; nextTimerId := 0%nat; now := t;
                  localStorage := ls; calls := [] |};
     mounted := true;
     awaitingChoice := false |}.

(** [handler], the listener for [beforeinstallprompt]. *)
Definition handler (e : Handle) : M unit :=
  (set_nativeFired true ;;
   setDeferredPrompt (Some e) ;;
   setPromptType Native ;;
   let* _ := setTimeout ShowPrompt 1500 in
   ret tt)%M.

(** The anonymous listener for [appinstalled]. *)
Definition installedListener : M unit :=
  (setVisible false ;;
   setDeferredPrompt None ;;
   setPromptType PNone)%M.

(** The body of a timeout callback. *)
Definition fire (cb : Callback) : M unit :=
  match cb with
  | ShowPrompt => setVisible true
  | FallbackCheck => fun s =>
      if negb (nativeFired (closure s)) then
        (setPromptType AndroidFallback ;; setVisible true)%M s
      else (tt, s)
  end.

Definition isAndroid (e : Env) : bool := Js.test_i ["Android"] (userAgent e).

(** The cooldown test of the effect:
    [dismissedAt && Date.now() - parseInt(dismissedAt) < 24 * 60 * 60 * 1000].
    [Date.now()] is only called when [dismissedAt] is truthy. *)
Definition inCooldown (dismissedAt : option string) : M bool :=
  match dismissedAt with
  | Some str =>
      if Js.truthy (Some str) then
        (let* t := dateNow in
         ret (Js.sub_lt t (Js.parseInt str) COOLDOWN))%M
      else ret false
  | None => ret false
  end.

(** The effect run once after the first render. *)
Definition useEffect (e : Env) : M unit :=
  (let* d := callDetectPlatform e in
   let detected := Detected.promptType d in
   if Detected.isStandalone d then ret tt else
   let* dismissedAt := getItem DISMISS_KEY in
   let* cooling := inCooldown dismissedAt in
   if cooling then ret tt else
   if bool_decide (detected = Wechat) || bool_decide (detected = IosSafari)
      || bool_decide (detected = IosOther)
   then
     setPromptType detected ;;
     let* _ := setTimeout ShowPrompt 2500 in
     ret tt
   else
     set_nativeFired false ;;
     addEventListener beforeinstallprompt ;;
     addEventListener appinstalled ;;
     set_fallbackTimer None ;;
     (if isAndroid e then
        let* id := setTimeout FallbackCheck 3500 in
        set_fallbackTimer (Some id)
      else ret tt) ;;
     set_hasCleanup true)%M.

(** The cleanup function returned by the effect on the native path. *)
Definition cleanup : M unit := fun s =>
  (removeEventListener beforeinstallprompt ;;
   match fallbackTimer (closure s) with
   | Some id => clearTimeout id
   | None => ret tt
   end)%M s.

Definition mount (e : Env) (t : Z) (ls : gmap string string) : Session :=
  exec (useEffect e) (initial t ls).

(** What is on screen: [if (!visible || promptType === 'none') return null],
    then one card per prompt type; nothing once unmounted. *)
Definition render (s : Session) : option PromptType :=
  if mounted s && visible (hooks s)
     && negb (bool_decide (promptType (hooks s) = PNone))
  then Some (promptType (hooks s)) else None.

(** [handleDismiss] *)
Definition handleDismiss : M unit :=
  (setVisible false ;;
   let* t := dateNow in
   setItem DISMISS_KEY (Js.toString t))%M.

(** [handleInstall] up to its first [await]: with no captured handle it
    returns at once, otherwise it suspends on the browser dialog. *)
Definition handleInstall : M unit := fun s =>
  match deferredPrompt (hooks s) with
  | None => (tt, s)
  | Some _ => set_awaitingChoice true s
  end.

(** [handleInstall] after [await deferredPrompt.userChoice]. *)
Definition handleInstallResume (accepted : bool) : M unit :=
  ((if accepted then setPromptType PNone else ret tt) ;;
   setVisible false ;;
   setDeferredPrompt None ;;
   set_awaitingChoice false)%M.

(** *** Events of a session *)

Inductive Event : Set :=
  | BeforeInstallPrompt (e : Handle)  (* the browser signals installability *)
  | AppInstalled                      (* the browser signals a completed install *)
  | ClickDismiss                      (* the X button of the card *)
  | ClickInstall                      (* the install button of the native card *)
  | UserChoice (accepted : bool)      (* the browser dialog is answered *)
  | Elapse (dt : Z)                   (* [dt] milliseconds pass *)
  | Unmount.

Definition set_now (t : Z) : M unit :=
  modify_window (fun w =>
    {| onBeforeInstallPrompt := onBeforeInstallPrompt w;
       onAppInstalled := onAppInstalled w; timers := timers w;
       nextTimerId := nextTimerId w; now := t;
       localStorage := localStorage w; calls := calls w |}).

Definition drop_timer (id : nat) : M unit :=
  modify_window (fun w =>
    {| onBeforeInstallPrompt := onBeforeInstallPrompt w;
       onAppInstalled := onAppInstalled w;
       timers := List.filter (fun t => negb (Nat.eqb (timerId t) id)) (timers w);
       nextTimerId := nextTimerId w; now := now w;
       localStorage := localStorage w; calls := calls w |}).

(** Timers fire by due time, then by registration order. *)
Definition fires_before (a b : Timer) : bool :=
  (due a <? due b) || ((due a =? due b) && (timerId a <=? timerId b)%nat).

Fixpoint insert_timer (t : Timer) (l : list Timer) : list Timer :=
  match l with
  | [] => [t]
  | u :: l' => if fires_before t u then t :: l else u :: insert_timer t l'
  end.

Definition timeline (l : list Timer) : list Timer :=
  fold_right insert_timer [] l.

Definition expired (t : Z) (l : list Timer) : list Timer :=
  timeline (List.filter (fun tm => due tm <=? t) l).

(** One expired timer: the clock reaches its due time, the timer leaves the
    pending list and its callback runs.  No callback of this component sets or
    clears a timer, so the list of expired timers is fixed beforehand. *)
Definition fire_timer (tm : Timer) : M unit :=
  (set_now (due tm) ;; drop_timer (timerId tm) ;; fire (callback tm))%M.

Fixpoint fire_all (l : list Timer) : M unit :=
  match l with
  | [] => ret tt
  | tm :: l' => (fire_timer tm ;; fire_all l')%M
  end.

Definition elapse (dt : Z) : M unit := fun s =>
  if dt <? 0 then (tt, s) else
  let t := now (window s) + dt in
  (fire_all (expired t (timers (window s))) ;; set_now t)%M s.

Definition unmount : M unit := fun s =>
  if mounted s then
    ((if hasCleanup (closure s) then cleanup else ret tt) ;;
     set_mounted false)%M s
  else (tt, s).

Definition dispatch (ev : Event) : M unit := fun s =>
  match ev with
  | BeforeInstallPrompt e =>
      if onBeforeInstallPrompt (window s) then handler e s else (tt, s)
  | AppInstalled =>
      if onAppInstalled (window s) then installedListener s else (tt, s)
  | ClickDismiss =>
      match render s with
      | Some _ => handleDismiss s
      | None => (tt, s)
      end
  | ClickInstall =>
      match render s with
      | Some Native => handleInstall s
      | _ => (tt, s)
      end
  | UserChoice accepted =>
      if awaitingChoice s then handleInstallResume accepted s else (tt, s)
  | Elapse dt => elapse dt s
  | Unmount => unmount s
  end.

Definition step (s : Session) (ev : Event) : Session := exec (dispatch ev) s.

Definition run (s : Session) (evs : list Event) : Session :=
  fold_left step evs s.

(** Milliseconds that pass during a list of events. *)
Fixpoint elapsed (evs : list Event) : Z :=
  match evs with
  | [] => 0
  | Elapse dt :: evs' => Z.max 0 dt + elapsed evs'
  | _ :: evs' => elapsed evs'
  end.

(** ** The language store: [i18n.ts] *)

Module I18n.

Inductive Language : Set := en | zh.

(** The fields of [interface Translations]. *)
Definition keys : list string :=
  ["initializeRun"; "controlHint"; "cyberShop"; "availableCredits";
   "resumeMission"; "gems"; "doubleJump"; "doubleJumpDesc"; "maxLifeUp";
   "maxLifeUpDesc"; "repairKit"; "repairKitDesc"; "immortality";
   "immortalityDesc"; "gameOver"; "level"; "gemsCollected"; "distance";
   "totalScore"; "runAgain"; "missionComplete"; "victoryMessage";
   "finalScore"; "restartMission"; "speed"; "immortal"].

Definition translations_en : gmap string string := list_to_map
  [
    ("initializeRun", "INITIALIZE RUN");
    ("controlHint", "[ ARROWS / BUTTONS TO MOVE ]");
    ("cyberShop", "CYBER SHOP");
    ("availableCredits", "AVAILABLE CREDITS:");
    ("resumeMission", "RESUME MISSION");
    ("gems", "GEMS");
    ("doubleJump", "DOUBLE JUMP");
    ("doubleJumpDesc", "Jump again in mid-air. Essential for high obstacles.");
    ("maxLifeUp", "MAX LIFE UP");
    ("maxLifeUpDesc", "Permanently adds a heart slot and heals you.");
    ("repairKit", "REPAIR KIT");
    ("repairKitDesc", "Restores 1 Life point instantly.");
    ("immortality", "IMMORTALITY");
    ("immortalityDesc", "Unlock Ability: Press Space/Tap to be invincible for 5s.");
    ("gameOver", "GAME OVER");
    ("level", "LEVEL");
    ("gemsCollected", "GEMS COLLECTED");
    ("distance", "DISTANCE");
    ("totalScore", "TOTAL SCORE");
    ("runAgain", "RUN AGAIN");
    ("missionComplete", "MISSION COMPLETE");
    ("victoryMessage", "THE ANSWER TO THE UNIVERSE HAS BEEN FOUND");
    ("finalScore", "FINAL SCORE");
    ("restartMission", "RESTART MISSION");
    ("speed", "SPEED");
    ("immortal", "IMMORTAL")
  ].

Definition translations_zh : gmap string string := list_to_map
  [
    ("initializeRun", "开始游戏");
    ("controlHint", "[ 方向键 / 按钮移动 ]");
    ("cyberShop", "赛博商店");
    ("availableCredits", "可用积分：");
    ("resumeMission", "继续任务");
    ("gems", "宝石");
    ("doubleJump", "二段跳");
    ("doubleJumpDesc", "在空中再次跳跃，跨越高障碍必备。");
    ("maxLifeUp", "生命上限提升");
    ("maxLifeUpDesc", "永久增加一颗心并恢复生命。");
    ("repairKit", "修复工具");
    ("repairKitDesc", "立即恢复1点生命值。");
    ("immortality", "无敌护盾");
    ("immortalityDesc", "解锁技能：按空格/点击可无敌5秒。");
    ("gameOver", "游戏结束");
    ("level", "关卡");
    ("gemsCollected", "收集宝石");
    ("distance", "距离");
    ("totalScore", "总分");
    ("runAgain", "再来一次");
    ("missionComplete", "任务完成");
    ("victoryMessage", "宇宙的答案已被找到");
    ("finalScore", "最终得分");
    ("restartMission", "重新开始");
    ("speed", "速度");
    ("immortal", "无敌")
  ].

Definition translations (lang : Language) : gmap string string :=
  match lang with
  | en => translations_en
  | zh => translations_zh
  end.

(** The data part of [I18nState]; [setLanguage] and [t] are its methods. *)
Record I18nState : Set := { language : Language }.

(** The store as [create] builds it, before any rehydration. *)
Definition init : I18nState := {| language := en |}.

(** [persist] writes the state under this name on every [set]. *)
Definition name : string := "runner-game-language".

Definition quote : string := String (ascii_of_nat 34) EmptyString.

Definition code (lang : Language) : string :=
  match lang with en => "en" | zh => "zh" end.

(** [JSON.stringify({ state, version: 0 })]; the two function fields of the
    state are dropped by [JSON.stringify]. *)
Definition serialize (st : I18nState) : string :=
  "{" +:+ quote +:+ "state" +:+ quote +:+ ":{" +:+ quote +:+ "language"
  +:+ quote +:+ ":" +:+ quote +:+ code (language st) +:+ quote +:+ "},"
  +:+ quote +:+ "version" +:+ quote +:+ ":0}".

(** The store together with the storage it is replicated to. *)
Record Store : Type := {
  state : I18nState;
  storage : gmap string string
}.

(** [setLanguage: (lang) => set({ language: lang })] under [persist]. *)
Definition setLanguage (lang : Language) (s : Store) : Store :=
  let st := {| language := lang |} in
  {| state := st; storage := <[name := serialize st]> (storage s) |}.

(** [translations[lang][key] || translations['en'][key] || key], read on the
    dictionaries' own entries; [Runtime.t] below adds what a string outside
    the key set can inherit from [Object.prototype]. *)
Definition t (s : Store) (key : string) : string :=
  let lang := language (state s) in
  default key
    (Js.or_else
       (Js.or_else (translations lang !! key) (translations en !! key))
       (Some key)).

(** The same lookup over an arbitrary dictionary. *)
Definition t_in (d : Language -> gmap string string) (lang : Language)
    (key : string) : string :=
  default key
    (Js.or_else (Js.or_else (d lang !! key) (d en !! key)) (Some key)).

End I18n.

(** ** Vocabulary of the properties *)

(** The cooldown test as a function of the clock and the stored value. *)
Definition cooling (t : Z) (dismissedAt : option string) : bool :=
  match dismissedAt with
  | Some str =>
      Js.truthy (Some str) && Js.sub_lt t (Js.parseInt str) COOLDOWN
  | None => false
  end.

(** Nothing is shown and nothing registered by the component is left that
    could change that: no listener, no timer, no suspended install flow. *)
Definition quiet (s : Session) : Prop :=
  visible (hooks s) = false /\
  timers (window s) = [] /\
  onBeforeInstallPrompt (window s) = false /\
  onAppInstalled (window s) = false /\
  awaitingChoice s = false.

(** The native path before any availability signal on a device that is not
    Android: listeners only, nothing shown, no timer. *)
Definition listening (s : Session) : Prop :=
  visible (hooks s) = false /\
  timers (window s) = [] /\
  awaitingChoice s = false.

(** The native path on Android while the fallback timeout, due at [d], is
    pending and no availability signal has arrived. *)
Definition waiting (d : Z) (s : Session) : Prop :=
  hooks s = {| deferredPrompt := None; visible := false; promptType := PNone |} /\
  nativeFired (closure s) = false /\
  (exists id, timers (window s) = [{| timerId := id; due := d; callback := FallbackCheck |}]) /\
  now (window s) < d /\
  mounted s = true /\
  awaitingChoice s = false.

Definition is_signal (ev : Event) : bool :=
  match ev with BeforeInstallPrompt _ => true | _ => false end.

Definition is_unmount (ev : Event) : bool :=
  match ev with Unmount => true | _ => false end.

(** Sample environments. *)
Definition ua_android_chrome : string :=
  "Mozilla/5.0 (Linux; Android 13; Pixel 7) AppleWebKit/537.36 (KHTML, like Gecko) Chrome/120.0.0.0 Mobile Safari/537.36".
Definition ua_desktop_chrome : string :=
  "Mozilla/5.0 (Windows NT 10.0; Win64; x64) AppleWebKit/537.36 (KHTML, like Gecko) Chrome/120.0.0.0 Safari/537.36".
Definition ua_iphone_safari : string :=
  "Mozilla/5.0 (iPhone; CPU iPhone OS 17_0 like Mac OS X) AppleWebKit/605.1.15 (KHTML, like Gecko) Version/17.0 Mobile/15E148 Safari/604.1".
Definition ua_iphone_chrome : string :=
  "Mozilla/5.0 (iPhone; CPU iPhone OS 17_0 like Mac OS X) AppleWebKit/605.1.15 (KHTML, like Gecko) CriOS/120.0.6099.119 Mobile/15E148 Safari/604.1".
Definition ua_iphone_wechat : string :=
  "Mozilla/5.0 (iPhone; CPU iPhone OS 17_0 like Mac OS X) AppleWebKit/605.1.15 (KHTML, like Gecko) Mobile/15E148 MicroMessenger/8.0.44 NetType/WIFI Language/zh_CN".
Definition ua_iphone_qqbrowser : string :=
  "Mozilla/5.0 (iPhone; CPU iPhone OS 17_0 like Mac OS X) AppleWebKit/605.1.15 (KHTML, like Gecko) Version/17.0 MQQBrowser/14.9 Mobile/15E148 Safari/604.1".

Definition browser (ua : string) : Env :=
  {| userAgent := ua; displayMode := false; navStandalone := None;
     platform := EmptyString; maxTouchPoints := 0 |}.

(** The session right after a mount that stopped early: the initial state,
    with [cs] as the calls made so far. *)
Definition suppressed (t : Z) (ls : gmap string string) (cs : list Call) : Session :=
  {| hooks := {| deferredPrompt := None; visible := false; promptType := PNone |};
     closure := {| nativeFired := false; fallbackTimer := None;
                   hasCleanup := false |};
     window := {| onBeforeInstallPrompt := false; onAppInstalled := false;
                  timers := []; nextTimerId := 0%nat; now := t;
                  localStorage := ls; calls := cs |};
     mounted := true;
     awaitingChoice := false |}.

(** A storage holding a dismissal recorded at 1700000000000, and a clock one
    hour later. *)
Definition dismissed_storage : gmap string string :=
  {[ DISMISS_KEY := "1700000000000" ]}.
Definition one_hour_later : Z := 1700000000000 + 60 * 60 * 1000.

(** An installation has been reported and nothing pending can bring a card
    back: the prompt type is ['none'] (or the component is gone), and the
    fallback timeout is either disarmed by an earlier availability signal or
    not pending. *)
Definition settled (s : Session) : Prop :=
  (mounted s = false \/ promptType (hooks s) = PNone) /\
  (nativeFired (closure s) = true \/
   Forall (fun tm => callback tm = ShowPrompt) (timers (window s))).

(** ** Vocabulary of the further properties *)

(** The classifications whose card needs no signal from the browser. *)
Definition guided (p : PromptType) : bool :=
  match p with
  | Wechat | IosSafari | IosOther => true
  | _ => false
  end.

(** The calls of the effect up to and including the cooldown test. *)
Definition cooldown_calls (ls : gmap string string) : list Call :=
  [CallDetectPlatform; CallGetItem DISMISS_KEY]
  ++ (if Js.truthy (ls !! DISMISS_KEY) then [CallDateNow] else []).

(** The session right after a mount on the in-app / iOS path. *)
Definition guided_session (t : Z) (ls : gmap string string) (p : PromptType) : Session :=
  {| hooks := {| deferredPrompt := None; visible := false; promptType := p |};
     closure := {| nativeFired := false; fallbackTimer := None;
                   hasCleanup := false |};
     window := {| onBeforeInstallPrompt := false; onAppInstalled := false;
                  timers := [{| timerId := 0%nat; due := t + 2500;
                                callback := ShowPrompt |}];
                  nextTimerId := 1%nat; now := t; localStorage := ls;
                  calls := cooldown_calls ls ++ [CallSetTimeout ShowPrompt 2500] |};
     mounted := true;
     awaitingChoice := false |}.

(** The session right after a mount on the native path. *)
Definition native_session (t : Z) (ls : gmap string string) (android : bool) : Session :=
  {| hooks := {| deferredPrompt := None; visible := false; promptType := PNone |};
     closure := {| nativeFired := false;
                   fallbackTimer := if android then Some 0%nat else None;
                   hasCleanup := true |};
     window := {| onBeforeInstallPrompt := true; onAppInstalled := true;
                  timers := if android
                            then [{| timerId := 0%nat; due := t + 3500;
                                     callback := FallbackCheck |}]
                            else [];
                  nextTimerId := if android then 1%nat else 0%nat;
                  now := t; localStorage := ls;
                  calls := cooldown_calls ls
                           ++ [CallAddEventListener beforeinstallprompt;
                               CallAddEventListener appinstalled]
                           ++ (if android
                               then [CallSetTimeout FallbackCheck 3500]
                               else []) |};
     mounted := true;
     awaitingChoice := false |}.

Definition is_dismiss (ev : Event) : bool :=
  match ev with ClickDismiss => true | _ => false end.

Definition is_installed (ev : Event) : bool :=
  match ev with AppInstalled => true | _ => false end.

(** No timer can fire before the clock shows [T], and nothing is shown. *)
Definition early (T : Z) (s : Session) : Prop :=
  visible (hooks s) = false /\
  Forall (fun tm => T <= due tm) (timers (window s)) /\
  T - 1500 <= now (window s).

(** The in-app / iOS path while the display timeout, due at [d], is pending. *)
Definition pending (p : PromptType) (d : Z) (s : Session) : Prop :=
  hooks s = {| deferredPrompt := None; visible := false; promptType := p |} /\
  (exists id, timers (window s)
              = [{| timerId := id; due := d; callback := ShowPrompt |}]) /\
  now (window s) < d /\
  onBeforeInstallPrompt (window s) = false /\
  onAppInstalled (window s) = false /\
  mounted s = true /\
  awaitingChoice s = false.

(** The prompt type [p] fits the environment [e]. *)
Definition fits (e : Env) (p : PromptType) : Prop :=
  match p with
  | PNone => True
  | Native => Detected.promptType (detectPlatform e) = Native
  | AndroidFallback =>
      Detected.promptType (detectPlatform e) = Native /\ isAndroid e = true
  | _ => p = Detected.promptType (detectPlatform e)
  end.

Definition sound (e : Env) (s : Session) : Prop :=
  fits e (promptType (hooks s)) /\
  (onBeforeInstallPrompt (window s) = true ->
   Detected.promptType (detectPlatform e) = Native) /\
  Forall (fun tm => callback tm = FallbackCheck -> fits e AndroidFallback)
    (timers (window s)).

(** Whatever the cleanup is responsible for can still be reached by it. *)
Definition tidy (s : Session) : Prop :=
  (onBeforeInstallPrompt (window s) = true ->
   mounted s = true /\ hasCleanup (closure s) = true) /\
  Forall (fun tm => callback tm = FallbackCheck ->
                    mounted s = true /\ hasCleanup (closure s) = true /\
                    fallbackTimer (closure s) = Some (timerId tm))
    (timers (window s)).

(** The native path before any availability signal, still mounted, with the
    fallback timeout (due at [d]) pending when [od] is [Some d] and no
    timeout at all when it is [None]. *)
Definition ready (od : option Z) (s : Session) : Prop :=
  hooks s = {| deferredPrompt := None; visible := false; promptType := PNone |} /\
  nativeFired (closure s) = false /\
  onBeforeInstallPrompt (window s) = true /\
  mounted s = true /\
  awaitingChoice s = false /\
  match od with
  | None => timers (window s) = []
  | Some d =>
      (exists id, timers (window s)
                  = [{| timerId := id; due := d; callback := FallbackCheck |}]
                  /\ (id < nextTimerId (window s))%nat) /\
      now (window s) < d
  end.

(** The native path after the availability signal carrying [h], while the
    display timeout, due at [d], is pending. *)
Definition armed (h : Handle) (d : Z) (s : Session) : Prop :=
  hooks s = {| deferredPrompt := Some h; visible := false;
               promptType := Native |} /\
  nativeFired (closure s) = true /\
  mounted s = true /\
  awaitingChoice s = false /\
  now (window s) < d /\
  exists id,
    timers (window s) = [{| timerId := id; due := d; callback := ShowPrompt |}]
    \/ exists id0 d0,
         id0 <> id /\
         timers (window s)
         = [{| timerId := id0; due := d0; callback := FallbackCheck |};
            {| timerId := id; due := d; callback := ShowPrompt |}].

(** The native card is only ever up after an availability signal. *)
Definition signalled (s : Session) : Prop :=
  promptType (hooks s) = Native -> nativeFired (closure s) = true.

(** ** The simpler revision of the component (first half of the file)

    One card, shown 2000 ms after the availability signal; an [isInstalled]
    flag; no classifier, no dismissal record, no fallback.  Every timeout
    carries the same callback, [() => setShowPrompt(true)], so a pending
    timeout is its due time. *)

Module Legacy.

Record Hooks : Set := {
  deferredPrompt : option Handle;
  showPrompt : bool;
  isInstalled : bool
}.

Record Session : Type := {
  hooks : Hooks;
  onBeforeInstallPrompt : bool;   (* [handler] is registered *)
  onAppInstalled : bool;          (* the anonymous listener is registered *)
  timers : list Z;                (* due times of the pending timeouts *)
  now : Z;
  mounted : bool;
  awaitingChoice : bool           (* [handleInstall] is suspended *)
}.

Definition with_hooks (f : Hooks -> Hooks) (s : Session) : Session :=
  {| hooks := f (hooks s);
     onBeforeInstallPrompt := onBeforeInstallPrompt s;
     onAppInstalled := onAppInstalled s; timers := timers s; now := now s;
     mounted := mounted s; awaitingChoice := awaitingChoice s |}.

(** A state update aimed at an unmounted component is dropped. *)
Definition setState (f : Hooks -> Hooks) (s : Session) : Session :=
  if mounted s then with_hooks f s else s.

Definition setDeferredPrompt (h : option Handle) : Session -> Session :=
  setState (fun k => {| deferredPrompt := h; showPrompt := showPrompt k;
                        isInstalled := isInstalled k |}).
Definition setShowPrompt (b : bool) : Session -> Session :=
  setState (fun k => {| deferredPrompt := deferredPrompt k; showPrompt := b;
                        isInstalled := isInstalled k |}).
Definition setIsInstalled (b : bool) : Session -> Session :=
  setState (fun k => {| deferredPrompt := deferredPrompt k;
                        showPrompt := showPrompt k; isInstalled := b |}).

Definition initial (t : Z) : Session :=
  {| hooks := {| deferredPrompt := None; showPrompt := false;
                 isInstalled := false |};
     onBeforeInstallPrompt := false; onAppInstalled := false;
     timers := []; now := t; mounted := true; awaitingChoice := false |}.

(** The effect: only the display-mode media query is consulted. *)
Definition useEffect (e : Env) (s : Session) : Session :=
  if displayMode e then setIsInstalled true s
  else
    {| hooks := hooks s; onBeforeInstallPrompt := true;
       onAppInstalled := true; timers := timers s; now := now s;
       mounted := mounted s; awaitingChoice := awaitingChoice s |}.

Definition mount (e : Env) (t : Z) : Session := useEffect e (initial t).

(** [handler]: keep the event, show the card 2000 ms later. *)
Definition handler (e : Handle) (s : Session) : Session :=
  let s := setDeferredPrompt (Some e) s in
  {| hooks := hooks s; onBeforeInstallPrompt := onBeforeInstallPrompt s;
     onAppInstalled := onAppInstalled s;
     timers := timers s ++ [now s + 2000]; now := now s;
     mounted := mounted s; awaitingChoice := awaitingChoice s |}.

Definition installedListener (s : Session) : Session :=
  setDeferredPrompt None (setShowPrompt false (setIsInstalled true s)).

Definition handleInstall (s : Session) : Session :=
  match deferredPrompt (hooks s) with
  | None => s
  | Some _ =>
      {| hooks := hooks s; onBeforeInstallPrompt := onBeforeInstallPrompt s;
         onAppInstalled := onAppInstalled s; timers := timers s;
         now := now s; mounted := mounted s; awaitingChoice := true |}
  end.

Definition handleInstallResume (accepted : bool) (s : Session) : Session :=
  let s := if accepted then setIsInstalled true s else s in
  let s := setDeferredPrompt None (setShowPrompt false s) in
  {| hooks := hooks s; onBeforeInstallPrompt := onBeforeInstallPrompt s;
     onAppInstalled := onAppInstalled s; timers := timers s;
     now := now s; mounted := mounted s; awaitingChoice := false |}.

Definition handleDismiss (s : Session) : Session := setShowPrompt false s.

(** [if (!showPrompt || isInstalled) return null]: is the card on screen? *)
Definition render (s : Session) : bool :=
  mounted s && showPrompt (hooks s) && negb (isInstalled (hooks s)).

(** The timeouts due by [t] fire, each calling [setShowPrompt(true)]. *)
Definition elapse (dt : Z) (s : Session) : Session :=
  if dt <? 0 then s else
  let t := now s + dt in
  let fired := List.filter (fun d => d <=? t) (timers s) in
  let s := fold_left (fun s _ => setShowPrompt true s) fired s in
  {| hooks := hooks s; onBeforeInstallPrompt := onBeforeInstallPrompt s;
     onAppInstalled := onAppInstalled s;
     timers := List.filter (fun d => negb (d <=? t)) (timers s);
     now := t; mounted := mounted s; awaitingChoice := awaitingChoice s |}.

(** The cleanup removes [handler] and nothing else; after a standalone
    start there is no cleanup. *)
Definition unmount (s : Session) : Session :=
  if mounted s then
    {| hooks := hooks s; onBeforeInstallPrompt := false;
       onAppInstalled := onAppInstalled s; timers := timers s;
       now := now s; mounted := false; awaitingChoice := awaitingChoice s |}
  else s.

Definition step (s : Session) (ev : Event) : Session :=
  match ev with
  | BeforeInstallPrompt e =>
      if onBeforeInstallPrompt s then handler e s else s
  | AppInstalled => if onAppInstalled s then installedListener s else s
  | ClickDismiss => if render s then handleDismiss s else s
  | ClickInstall => if render s then handleInstall s else s
  | UserChoice accepted =>
      if awaitingChoice s then handleInstallResume accepted s else s
  | Elapse dt => elapse dt s
  | Unmount => unmount s
  end.

Definition run (s : Session) (evs : list Event) : Session :=
  fold_left step evs s.

(** The card cannot come back: installed, or unmounted. *)
Definition over (s : Session) : Prop :=
  isInstalled (hooks s) = true \/ mounted s = false.

(** While mounted and not installed both listeners are in place. *)
Definition live (s : Session) : Prop :=
  mounted s = true ->
  isInstalled (hooks s) = true \/
  (onBeforeInstallPrompt s = true /\ onAppInstalled s = true).

End Legacy.

(** ** The lookup with inherited properties

    [translations[lang][key]] is a property read on a plain object: when the
    object has no entry of its own for [key], the read goes on to
    [Object.prototype], so for a string such as [toString] it finds a member
    of that prototype instead of [undefined].  [I18n.t] above is the lookup
    on the dictionaries' own entries, which is all there is for the keys of
    the key set; [Runtime.t] is the lookup for an arbitrary string, with
    [Object.prototype] as the language defines it. *)

Module Runtime.

Inductive Value : Set :=
  | VString (s : string)
  | VInherited (name : string)   (* the member [name] of Object.prototype *)
  | VUndefined.

(** The property names of [Object.prototype]. *)
Definition object_prototype : list string :=
  ["constructor"; "__defineGetter__"; "__defineSetter__"; "hasOwnProperty";
   "__lookupGetter__"; "__lookupSetter__"; "isPrototypeOf";
   "propertyIsEnumerable"; "toString"; "valueOf"; "__proto__";
   "toLocaleString"].

Definition inherited (key : string) : bool :=
  existsb (String.eqb key) object_prototype.

(** [o[key]]: an own entry shadows an inherited member. *)
Definition get (o : gmap string string) (key : string) : Value :=
  match o !! key with
  | Some v => VString v
  | None => if inherited key then VInherited key else VUndefined
  end.

(** The members of [Object.prototype] are functions, and [__proto__] answers
    an object: all truthy. *)
Definition truthy (v : Value) : bool :=
  match v with
  | VString s => negb (String.eqb s "")
  | VInherited _ => true
  | VUndefined => false
  end.

Definition or_else (a b : Value) : Value := if truthy a then a else b.

(** [translations[lang][key] || translations['en'][key] || key] *)
Definition t (s : I18n.Store) (key : string) : Value :=
  let lang := I18n.language (I18n.state s) in
  or_else
    (or_else (get (I18n.translations lang) key)
             (get (I18n.translations I18n.en) key))
    (VString key).

End Runtime.

(** A string from the values of its bytes. *)
Definition bytes (l : list Z) (rest : string) : string :=
  fold_right (fun n s => String (ascii_of_N (Z.to_N n)) s) rest l.

(** * Properties *)

(** ** Facts about the modelled built-ins *)

Section JsFacts.

Lemma prefix_app (pat post : string) : String.prefix pat (pat +:+ post) = true.
Proof.
  induction pat as [|c pat IH]; simpl.
  - now destruct post.
  - destruct (Ascii.ascii_dec c c) as [_|Hc]; [exact IH | now destruct Hc].
Qed.

Lemma prefix_split (pat s : string) :
  String.prefix pat s = true -> exists post, s = pat +:+ post.
Proof.
  revert s; induction pat as [|c pat IH]; intros s H.
  - now exists s.
  - destruct s as [|c' s]; simpl in H; [discriminate|].
    destruct (Ascii.ascii_dec c c') as [->|_]; [|discriminate].
    destruct (IH _ H) as [post ->]. now exists post.
Qed.

(** [includes] is the substring relation. *)
Lemma includes_spec (pat s : string) :
  Js.includes pat s = true <-> exists pre post, s = pre +:+ pat +:+ post.
Proof.
  split.
  - induction s as [|c s IH]; cbn [Js.includes]; intros H.
    + rewrite orb_false_r in H. destruct (prefix_split _ _ H) as [post ->].
      now exists EmptyString, post.
    + apply orb_true_iff in H as [H|H].
      * destruct (prefix_split _ _ H) as [post Hp].
        exists EmptyString, post. exact Hp.
      * destruct (IH H) as (pre & post & ->).
        now exists (String c pre), post.
  - intros (pre & post & ->).
    induction pre as [|c pre IH].
    + change (EmptyString +:+ pat +:+ post) with (pat +:+ post).
      pose proof (prefix_app pat post) as Hp.
      destruct (pat +:+ post); cbn [Js.includes]; now rewrite Hp.
    + change (String c pre +:+ pat +:+ post) with (String c (pre +:+ pat +:+ post)).
      cbn [Js.includes]. rewrite IH. apply orb_true_r.
Qed.

Lemma digits_acc (d : uint) (p : positive) :
  Js.digits 10 (NilEmpty.string_of_uint d) (Zpos p) true
  = Some (Zpos (Pos.of_uint_acc d p)).
Proof.
  revert p; induction d; intros p; simpl NilEmpty.string_of_uint;
    [reflexivity | ..];
    cbn [Js.digits]; unfold Js.digit_value; simpl;
    match goal with
    | |- Js.digits _ _ ?a _ = Some (Zpos (Pos.of_uint_acc _ ?q)) =>
        replace a with (Zpos q) by lia
    end; apply IHd.
Qed.

Lemma digits_uint (d : uint) :
  Js.digits 10 (NilEmpty.string_of_uint d) 0 true
  = Some (Z.of_N (Pos.of_uint d)).
Proof.
  induction d; simpl NilEmpty.string_of_uint; [reflexivity | ..];
    cbn [Js.digits]; unfold Js.digit_value; simpl;
    first [ exact IHd | apply digits_acc ].
Qed.

Lemma unsigned_uint (d : uint) :
  d <> Nil ->
  Js.unsigned (NilEmpty.string_of_uint d) = Some (Z.of_N (Pos.of_uint d)).
Proof.
  intros Hd. rewrite <- digits_uint.
  destruct d; [now destruct Hd | ..]; try reflexivity.
  destruct d; reflexivity.
Qed.

Lemma parseInt_uint (d : uint) :
  d <> Nil ->
  Js.parseInt (NilEmpty.string_of_uint d) = Some (Z.of_N (Pos.of_uint d)).
Proof.
  intros Hd. rewrite <- (unsigned_uint d Hd).
  destruct d; [now destruct Hd | ..]; reflexivity.
Qed.

Lemma parseInt_neg_uint (d : uint) :
  d <> Nil ->
  Js.parseInt (String "-" (NilEmpty.string_of_uint d))
  = Some (- Z.of_N (Pos.of_uint d)).
Proof.
  intros Hd. change (Js.parseInt (String "-" (NilEmpty.string_of_uint d)))
    with (Z.opp <$> Js.unsigned (NilEmpty.string_of_uint d)).
  now rewrite unsigned_uint.
Qed.

(** Reading back a printed time value gives the value. *)
Lemma parseInt_toString (z : Z) : Js.parseInt (Js.toString z) = Some z.
Proof.
  destruct z as [|p|p]; [reflexivity | ..]; unfold Js.toString.
  - rewrite parseInt_uint by apply DecimalPos.Unsigned.to_uint_nonnil.
    now rewrite DecimalPos.Unsigned.of_to.
  - rewrite parseInt_neg_uint by apply DecimalPos.Unsigned.to_uint_nonnil.
    now rewrite DecimalPos.Unsigned.of_to.
Qed.

Example parseInt_decimal : Js.parseInt "1700000000000" = Some 1700000000000.
Proof. reflexivity. Qed.

Example parseInt_prefix : Js.parseInt "  -42abc" = Some (-42).
Proof. reflexivity. Qed.

Example parseInt_hex : Js.parseInt "0x1F" = Some 31.
Proof. reflexivity. Qed.

Example parseInt_nan : Js.parseInt "soon" = None.
Proof. reflexivity. Qed.

Lemma truthy_parseInt (str : string) (z : Z) :
  Js.parseInt str = Some z -> Js.truthy (Some str) = true.
Proof. destruct str; [discriminate | reflexivity]. Qed.

End JsFacts.

Lemma test_spec (alts : list string) (s : string) :
  Js.test alts s = true <->
  exists pat pre post, In pat alts /\ s = pre +:+ pat +:+ post.
Proof.
  unfold Js.test. rewrite existsb_exists. split.
  - intros (pat & Hin & H). apply includes_spec in H as (pre & post & ->).
    now exists pat, pre, post.
  - intros (pat & pre & post & Hin & ->). exists pat. split; [exact Hin|].
    apply includes_spec. now exists pre, post.
Qed.

(** ** The platform classifier *)

Section Classifier.

Variable e : Env.

Lemma detectPlatform_isStandalone :
  Detected.isStandalone (detectPlatform e) = isStandaloneEnv e.
Proof.
  unfold detectPlatform.
  destruct (isStandaloneEnv e), (isInApp e), (isIOS e), (isSafari e); reflexivity.
Qed.

(** The classifier itself never answers ['android-fallback']: that variant is
    only ever set by the fallback timeout of the effect. *)
Lemma detectPlatform_not_fallback :
  Detected.promptType (detectPlatform e) <> AndroidFallback.
Proof.
  unfold detectPlatform.
  destruct (isStandaloneEnv e), (isInApp e), (isIOS e), (isSafari e); discriminate.
Qed.

(** C1. The classifier applies its rules in a fixed order and the first match
    wins: standalone gives ['none']; otherwise a user agent matching the
    in-app signatures gives ['wechat'], whether or not the device is iOS;
    otherwise an iOS device with the Safari token and no other-browser token
    gives ['ios-safari']; otherwise an iOS device gives ['ios-other'];
    otherwise the candidate is ['native']. *)
Theorem detectPlatform_first_match :
  (isStandaloneEnv e = true ->
     Detected.promptType (detectPlatform e) = PNone) /\
  (isStandaloneEnv e = false -> isInApp e = true ->
     Detected.promptType (detectPlatform e) = Wechat) /\
  (isStandaloneEnv e = false -> isInApp e = false -> isIOS e = true ->
   Js.test ["Safari"] (userAgent e) = true ->
   Js.test other_browser_tokens (userAgent e) = false ->
     Detected.promptType (detectPlatform e) = IosSafari) /\
  (isStandaloneEnv e = false -> isInApp e = false -> isIOS e = true ->
   (Js.test ["Safari"] (userAgent e) = false \/
    Js.test other_browser_tokens (userAgent e) = true) ->
     Detected.promptType (detectPlatform e) = IosOther) /\
  (isStandaloneEnv e = false -> isInApp e = false -> isIOS e = false ->
     Detected.promptType (detectPlatform e) = Native).
Proof.
  unfold detectPlatform, isSafari.
  repeat split.
  - now intros ->.
  - now intros -> ->.
  - now intros -> -> -> -> ->.
  - intros -> -> -> [-> | ->]; [reflexivity|].
    now rewrite andb_false_r.
  - now intros -> -> ->.
Qed.

(** C10. The classifier answers ['none'] exactly when it reports standalone,
    it reports standalone exactly when the display mode is standalone or
    [navigator.standalone] is [true], and every environment in which neither
    holds gets one of the five guidance classifications. *)
Theorem detectPlatform_none_iff_standalone :
  (Detected.promptType (detectPlatform e) = PNone <->
   Detected.isStandalone (detectPlatform e) = true) /\
  (Detected.isStandalone (detectPlatform e) = true <->
   displayMode e = true \/ navStandalone e = Some true) /\
  (displayMode e = false -> navStandalone e <> Some true ->
   In (Detected.promptType (detectPlatform e))
      [Native; IosSafari; IosOther; Wechat; AndroidFallback]).
Proof.
  assert (Hs : isStandaloneEnv e = true <->
               displayMode e = true \/ navStandalone e = Some true).
  { unfold isStandaloneEnv. rewrite orb_true_iff, bool_decide_eq_true.
    reflexivity. }
  split; [|split].
  - unfold detectPlatform.
    destruct (isStandaloneEnv e), (isInApp e), (isIOS e), (isSafari e);
      cbn [Detected.promptType Detected.isStandalone]; split; congruence.
  - rewrite detectPlatform_isStandalone. exact Hs.
  - intros Hd Hn.
    assert (Hf : isStandaloneEnv e = false).
    { destruct (isStandaloneEnv e); [|reflexivity].
      destruct (proj1 Hs eq_refl); congruence. }
    unfold detectPlatform. rewrite Hf.
    destruct (isInApp e), (isIOS e), (isSafari e);
      cbn [Detected.promptType In]; auto 10.
Qed.

End Classifier.

(** The classifier on sample environments. *)

Example classify_wechat_on_iphone :
  isIOS (browser ua_iphone_wechat) = true /\
  Detected.promptType (detectPlatform (browser ua_iphone_wechat)) = Wechat.
Proof. split; vm_compute; reflexivity. Qed.

Example classify_iphone_safari :
  Detected.promptType (detectPlatform (browser ua_iphone_safari)) = IosSafari.
Proof. vm_compute. reflexivity. Qed.

Example classify_iphone_chrome :
  Detected.promptType (detectPlatform (browser ua_iphone_chrome)) = IosOther.
Proof. vm_compute. reflexivity. Qed.

Example classify_android_chrome :
  Detected.promptType (detectPlatform (browser ua_android_chrome)) = Native.
Proof. vm_compute. reflexivity. Qed.

(** An iPad asking for the desktop site: no iOS token, but [MacIntel] with
    touch points. *)
Example classify_ipad_desktop_mode :
  Detected.promptType
    (detectPlatform
       {| userAgent := "Mozilla/5.0 (Macintosh; Intel Mac OS X 10_15_7) AppleWebKit/605.1.15 (KHTML, like Gecko) Version/17.0 Safari/605.1.15";
          displayMode := false; navStandalone := Some false;
          platform := "MacIntel"; maxTouchPoints := 5 |}) = IosSafari.
Proof. vm_compute. reflexivity. Qed.

Example classify_standalone :
  detectPlatform
    {| userAgent := ua_iphone_wechat; displayMode := false;
       navStandalone := Some true; platform := "iPhone";
       maxTouchPoints := 5 |}
  = {| Detected.promptType := PNone; Detected.isStandalone := true |}.
Proof. vm_compute. reflexivity. Qed.

(** The in-app signatures are matched whatever the letter case, and the QQ
    signature is the token [QQ/]: the QQ browser, whose user agent carries
    [MQQBrowser/], is not an in-app browser. *)
Example in_app_ignores_case :
  isInApp (browser "mozilla/5.0 micromessenger/8.0") = true.
Proof. vm_compute. reflexivity. Qed.

Example classify_qq_in_app :
  isInApp (browser "Mozilla/5.0 (Linux; Android 13) Mobile Safari/537.36 QQ/9.0.8") = true.
Proof. vm_compute. reflexivity. Qed.

Example classify_qq_browser :
  isInApp (browser ua_iphone_qqbrowser) = false /\
  Detected.promptType (detectPlatform (browser ua_iphone_qqbrowser)) = IosSafari.
Proof. split; vm_compute; reflexivity. Qed.

(** ** The language store *)

Section Lookup.

Import I18n.

(** Every key of the key set has a non-empty text in both languages. *)
Lemma translations_complete (lang : Language) (key : string) :
  In key keys ->
  exists v, translations lang !! key = Some v /\ v <> EmptyString.
Proof.
  intros H. unfold keys in H. cbn [In] in H.
  repeat (destruct H as [<- | H];
          [destruct lang; eexists;
           (split; [vm_compute; reflexivity | discriminate]) |]).
  destruct H.
Qed.

(** The fallback chain over any dictionary whose texts are not empty. *)
Lemma t_in_chain (d : Language -> gmap string string) (lang : Language)
    (key : string) :
  (forall l k, d l !! k <> Some EmptyString) ->
  t_in d lang key =
    match d lang !! key with
    | Some v => v
    | None => match d en !! key with
              | Some v => v
              | None => key
              end
    end.
Proof.
  intros Hne. unfold t_in, Js.or_else.
  pose proof (Hne lang key) as H1. pose proof (Hne en key) as H2.
  destruct (d lang !! key) as [[|c v]|]; [congruence | reflexivity |].
  destruct (d en !! key) as [[|c v]|]; [congruence | reflexivity |].
  cbn. now destruct key.
Qed.

(** An entry that is the empty string counts as absent: [||] tests
    truthiness. *)
Lemma t_in_empty_entry :
  t_in (fun _ => {[ "k" := EmptyString ]}) zh "k" = "k".
Proof. reflexivity. Qed.

(** C8. For a key of the key set, the lookup answers the active language's
    entry; were it absent, the entry of ['en']; were that absent too, the key
    itself. *)
Theorem t_fallback_chain (s : Store) (key : string) :
  In key keys ->
  match translations (language (state s)) !! key with
  | Some v => t s key = v
  | None =>
      match translations en !! key with
      | Some v => t s key = v
      | None => t s key = key
      end
  end.
Proof.
  intros H.
  destruct (translations_complete (language (state s)) key H) as (v & Hv & Hne).
  rewrite Hv. unfold t, Js.or_else. rewrite Hv.
  destruct v; [congruence | reflexivity].
Qed.

Lemma t_fallback_chain_witness :
  In "gems" keys /\
  match translations zh !! "gems" with
  | Some v => t {| state := {| language := zh |}; storage := ∅ |} "gems" = v
  | None =>
      match translations en !! "gems" with
      | Some v => t {| state := {| language := zh |}; storage := ∅ |} "gems" = v
      | None => t {| state := {| language := zh |}; storage := ∅ |} "gems" = "gems"
      end
  end.
Proof.
  assert (Hin : In "gems" keys) by (unfold keys; simpl; tauto).
  split; [exact Hin|].
  exact (t_fallback_chain {| state := {| language := zh |}; storage := ∅ |}
           "gems" Hin).
Defined.

(** C9. Starting with ['en'] active, [setLanguage('zh')] followed by
    [setLanguage('en')] gives back the original lookup for every key. *)
Theorem setLanguage_round_trip (s : Store) (key : string) :
  language (state s) = en ->
  In key keys ->
  t (setLanguage en (setLanguage zh s)) key = t s key.
Proof.
  intros H _. unfold t, setLanguage. cbn. now rewrite H.
Qed.

Lemma setLanguage_round_trip_witness :
  t (setLanguage en (setLanguage zh {| state := init; storage := ∅ |})) "speed"
  = t {| state := init; storage := ∅ |} "speed".
Proof.
  apply setLanguage_round_trip; [reflexivity | unfold keys; simpl; tauto].
Defined.

(** In between, the lookup is the Chinese one. *)
Lemma setLanguage_switches (s : Store) :
  t (setLanguage zh s) "speed" <> t (setLanguage en s) "speed".
Proof. vm_compute. discriminate. Qed.

(** Each switch is written through to the storage. *)
Lemma setLanguage_persists (lang : Language) (s : Store) :
  storage (setLanguage lang s) !! name = Some (serialize {| language := lang |})
  /\ language (state (setLanguage lang s)) = lang.
Proof. split; [apply lookup_insert_eq | reflexivity]. Qed.

End Lookup.

(** ** The session *)

Section SessionFacts.

#[local] Arguments isAndroid : simpl never.
#[local] Arguments detectPlatform : simpl never.

Ltac open_session s :=
  destruct s as [[dp vis pt] [nf ft hc] [bip inst tms nid nw ls cl] mt aw].

Lemma quiet_render (s : Session) : quiet s -> render s = None.
Proof.
  intros (Hv & _). unfold render. rewrite Hv. now rewrite andb_false_r.
Qed.

Lemma quiet_step (s : Session) (ev : Event) :
  quiet s -> quiet (step s ev).
Proof.
  open_session s. unfold quiet. cbn. intros (-> & -> & -> & -> & ->).
  destruct ev as [h| | | |a|dt|];
    unfold step, exec, dispatch, render, elapse, unmount; cbn;
    rewrite ?andb_false_r; cbn; try tauto.
  - destruct (dt <? 0); cbn; tauto.
  - destruct mt; cbn; [|tauto].
    destruct hc; cbn; [|tauto].
    destruct ft; cbn; tauto.
Qed.

Lemma quiet_run (evs : list Event) (s : Session) :
  quiet s -> quiet (run s evs).
Proof.
  revert s; induction evs as [|ev evs IH]; intros s H; [exact H|].
  apply IH, quiet_step, H.
Qed.

Ltac unfold_effect :=
  unfold mount, exec, useEffect, bind, ret, callDetectPlatform, getItem,
    inCooldown, dateNow, setPromptType, setVisible, setDeferredPrompt,
    setState, setTimeout, addEventListener, removeEventListener,
    set_nativeFired, set_fallbackTimer, set_hasCleanup, modify_hooks,
    modify_closure, modify_window, exec, initial.

Lemma mount_suppressed (e : Env) (t : Z) (ls : gmap string string) :
  cooling t (ls !! DISMISS_KEY) = true ->
  mount e t ls =
  suppressed t ls
    (if isStandaloneEnv e then [CallDetectPlatform]
     else [CallDetectPlatform; CallGetItem DISMISS_KEY; CallDateNow]).
Proof.
  intros Hc. unfold_effect. rewrite detectPlatform_isStandalone.
  destruct (isStandaloneEnv e); cbn; [reflexivity|].
  destruct (ls !! DISMISS_KEY) as [str|]; [|discriminate].
  unfold cooling in Hc. apply andb_true_iff in Hc as [Ht Hlt].
  cbn in Ht. rewrite Ht. cbn. rewrite Hlt. reflexivity.
Qed.

Lemma suppressed_quiet (t : Z) (ls : gmap string string) (cs : list Call) :
  quiet (suppressed t ls cs).
Proof. repeat split. Qed.

Lemma cooling_stored (t ts : Z) (str : string) (ls : gmap string string) :
  ls !! DISMISS_KEY = Some str ->
  Js.parseInt str = Some ts ->
  t - ts < COOLDOWN ->
  cooling t (ls !! DISMISS_KEY) = true.
Proof.
  intros -> Hp Hlt. unfold cooling.
  rewrite (truthy_parseInt _ _ Hp), Hp. cbn. now apply Z.ltb_lt.
Qed.

(** A session mounted during the cooldown never shows anything. *)
Lemma cooling_session_silent (e : Env) (t : Z) (ls : gmap string string)
    (evs : list Event) :
  cooling t (ls !! DISMISS_KEY) = true ->
  render (run (mount e t ls) evs) = None.
Proof.
  intros Hc. rewrite (mount_suppressed e t ls Hc).
  apply quiet_render, quiet_run, suppressed_quiet.
Qed.

(** C2. With a stored dismissal timestamp less than 24 hours old at mount, no
    guidance is shown at any point of the session, whatever the platform and
    whatever happens afterwards. *)
Theorem cooldown_suppresses_guidance (e : Env) (t ts : Z) (str : string)
    (ls : gmap string string) (evs : list Event) :
  ls !! DISMISS_KEY = Some str ->
  Js.parseInt str = Some ts ->
  t - ts < COOLDOWN ->
  render (run (mount e t ls) evs) = None.
Proof.
  intros Hls Hp Hlt. apply cooling_session_silent.
  exact (cooling_stored t ts str ls Hls Hp Hlt).
Qed.

Lemma cooldown_suppresses_guidance_witness :
  render (run (mount (browser ua_iphone_safari) one_hour_later dismissed_storage)
              [Elapse 2500; BeforeInstallPrompt 0%nat; Elapse 5000]) = None.
Proof.
  apply (cooldown_suppresses_guidance _ _ 1700000000000 "1700000000000").
  - reflexivity.
  - reflexivity.
  - vm_compute. reflexivity.
Defined.

(** C3, as stated, fails: in a session mounted during the cooldown the
    classifier has run, and it ran before the dismissal record was read. *)
Lemma cooldown_session_classifies_first :
  cooling one_hour_later (dismissed_storage !! DISMISS_KEY) = true /\
  calls (window (mount (browser ua_android_chrome) one_hour_later
                   dismissed_storage))
  = [CallDetectPlatform; CallGetItem DISMISS_KEY; CallDateNow].
Proof. split; vm_compute; reflexivity. Qed.

(** C3, amended. With a stored dismissal timestamp less than 24 hours old at
    mount, the effect leaves the component in its initial state with no
    listener and no timer registered; the classifier is the first thing it
    runs, then (unless standalone) it reads the dismissal record and the
    clock, and it does nothing else. *)
Theorem cooldown_suppresses_after_classification (e : Env) (t ts : Z)
    (str : string) (ls : gmap string string) :
  ls !! DISMISS_KEY = Some str ->
  Js.parseInt str = Some ts ->
  t - ts < COOLDOWN ->
  mount e t ls =
  suppressed t ls
    (if isStandaloneEnv e then [CallDetectPlatform]
     else [CallDetectPlatform; CallGetItem DISMISS_KEY; CallDateNow]).
Proof.
  intros Hls Hp Hlt. apply mount_suppressed.
  exact (cooling_stored t ts str ls Hls Hp Hlt).
Qed.

Lemma cooldown_suppresses_after_classification_witness :
  mount (browser ua_iphone_wechat) one_hour_later dismissed_storage =
  suppressed one_hour_later dismissed_storage
    (if isStandaloneEnv (browser ua_iphone_wechat) then [CallDetectPlatform]
     else [CallDetectPlatform; CallGetItem DISMISS_KEY; CallDateNow]).
Proof.
  apply (cooldown_suppresses_after_classification _ _ 1700000000000
           "1700000000000").
  - reflexivity.
  - reflexivity.
  - vm_compute. reflexivity.
Defined.

Lemma render_shown (s : Session) (p : PromptType) :
  render s = Some p ->
  mounted s = true /\ visible (hooks s) = true /\ promptType (hooks s) = p.
Proof.
  unfold render. destruct (mounted s), (visible (hooks s)); cbn; try discriminate.
  destruct (bool_decide (promptType (hooks s) = PNone)); cbn; [discriminate|].
  now intros [= <-].
Qed.

(** C5. Activating the dismiss control of any shown variant hides the
    guidance and stores the current time under the dismissal key, and every
    later load that finds this record less than 24 hours after that time
    shows no guidance. *)
Theorem dismiss_persists_timestamp (s : Session) (p : PromptType) :
  render s = Some p ->
  render (step s ClickDismiss) = None /\
  localStorage (window (step s ClickDismiss)) !! DISMISS_KEY
    = Some (Js.toString (now (window s))) /\
  forall (e : Env) (t : Z) (ls : gmap string string) (evs : list Event),
    ls !! DISMISS_KEY
      = localStorage (window (step s ClickDismiss)) !! DISMISS_KEY ->
    t - now (window s) < COOLDOWN ->
    render (run (mount e t ls) evs) = None.
Proof.
  intros Hr. destruct (render_shown s p Hr) as (Hm & Hv & Hp).
  assert (Hls : localStorage (window (step s ClickDismiss)) !! DISMISS_KEY
                = Some (Js.toString (now (window s)))).
  { unfold step, exec, dispatch. rewrite Hr.
    unfold handleDismiss, bind, setVisible, setState. rewrite Hm. cbn.
    apply lookup_insert_eq. }
  split; [|split; [exact Hls|]].
  - unfold step, exec, dispatch. rewrite Hr.
    unfold handleDismiss, bind, setVisible, setState. rewrite Hm. cbn.
    unfold render. cbn. now rewrite andb_false_r.
  - intros e t ls evs Hsame Hlt. apply cooling_session_silent.
    rewrite Hls in Hsame.
    exact (cooling_stored t (now (window s)) _ _ Hsame (parseInt_toString _) Hlt).
Qed.

Lemma dismiss_persists_timestamp_witness :
  render (step (run (mount (browser ua_iphone_safari) 1000 ∅) [Elapse 2500])
            ClickDismiss) = None /\
  localStorage
    (window (step (run (mount (browser ua_iphone_safari) 1000 ∅) [Elapse 2500])
               ClickDismiss)) !! DISMISS_KEY
    = Some (Js.toString
              (now (window (run (mount (browser ua_iphone_safari) 1000 ∅)
                              [Elapse 2500])))) /\
  forall (e : Env) (t : Z) (ls : gmap string string) (evs : list Event),
    ls !! DISMISS_KEY
      = localStorage
          (window (step (run (mount (browser ua_iphone_safari) 1000 ∅)
                           [Elapse 2500]) ClickDismiss)) !! DISMISS_KEY ->
    t - now (window (run (mount (browser ua_iphone_safari) 1000 ∅)
                       [Elapse 2500])) < COOLDOWN ->
    render (run (mount e t ls) evs) = None.
Proof.
  apply (dismiss_persists_timestamp _ IosSafari). vm_compute. reflexivity.
Defined.

(** The language store writes under another key and leaves the dismissal
    record alone. *)
Lemma setLanguage_keeps_dismissal (lang : I18n.Language) (s : I18n.Store) :
  I18n.storage (I18n.setLanguage lang s) !! DISMISS_KEY
  = I18n.storage s !! DISMISS_KEY.
Proof. unfold I18n.setLanguage. cbn. now apply lookup_insert_ne. Qed.

(** The dismissal seen from the next load: the card is shown on iOS Safari
    after 2500 ms, dismissed at once; a load 23 hours later shows nothing, a
    load 25 hours later shows the card again. *)
Example dismiss_then_reload :
  render (run (mount (browser ua_iphone_safari) 1000 ∅) [Elapse 2500])
  = Some IosSafari /\
  render (run (mount (browser ua_iphone_safari) (3500 + 23 * 3600000)
                 (localStorage (window
                    (run (mount (browser ua_iphone_safari) 1000 ∅)
                       [Elapse 2500; ClickDismiss]))))
            [Elapse 2500]) = None /\
  render (run (mount (browser ua_iphone_safari) (3500 + 25 * 3600000)
                 (localStorage (window
                    (run (mount (browser ua_iphone_safari) 1000 ∅)
                       [Elapse 2500; ClickDismiss]))))
            [Elapse 2500]) = Some IosSafari.
Proof. repeat split; vm_compute; reflexivity. Qed.


(** *** The native path *)

Lemma native_not_standalone (e : Env) :
  Detected.promptType (detectPlatform e) = Native -> isStandaloneEnv e = false.
Proof.
  unfold detectPlatform. destruct (isStandaloneEnv e); [discriminate | reflexivity].
Qed.

Ltac enter_native_path e ls Hd Hc :=
  unfold_effect; rewrite detectPlatform_isStandalone;
  rewrite (native_not_standalone e Hd), Hd; cbn;
  repeat (rewrite bool_decide_eq_false_2 by discriminate); cbn;
  unfold cooling in Hc;
  destruct (ls !! DISMISS_KEY) as [str|]; cbn in Hc |- *;
  [destruct (negb (String.eqb str EmptyString)); cbn in Hc |- *;
   [rewrite Hc|] |]; cbn.

Lemma mount_native_android (e : Env) (t : Z) (ls : gmap string string) :
  Detected.promptType (detectPlatform e) = Native ->
  cooling t (ls !! DISMISS_KEY) = false ->
  isAndroid e = true ->
  waiting (t + 3500) (mount e t ls) /\ now (window (mount e t ls)) = t.
Proof.
  intros Hd Hc Ha.
  enter_native_path e ls Hd Hc; rewrite Ha; cbn; unfold waiting; cbn;
    (repeat split; [eauto | lia]).
Qed.

Lemma mount_native_other (e : Env) (t : Z) (ls : gmap string string) :
  Detected.promptType (detectPlatform e) = Native ->
  cooling t (ls !! DISMISS_KEY) = false ->
  isAndroid e = false ->
  listening (mount e t ls).
Proof.
  intros Hd Hc Ha.
  enter_native_path e ls Hd Hc; rewrite Ha; cbn; unfold listening; cbn;
    repeat split.
Qed.

Lemma listening_render (s : Session) : listening s -> render s = None.
Proof.
  intros (Hv & _). unfold render. rewrite Hv. now rewrite andb_false_r.
Qed.

Lemma listening_step (s : Session) (ev : Event) :
  is_signal ev = false -> listening s -> listening (step s ev).
Proof.
  open_session s. unfold listening. cbn. intros Hev (-> & -> & ->).
  destruct ev as [h| | | |a|dt|]; [discriminate | ..];
    unfold step, exec, dispatch, render, elapse, unmount; cbn;
    rewrite ?andb_false_r; cbn; try tauto.
  - destruct inst; cbn; [|tauto].
    unfold installedListener, bind, setVisible, setDeferredPrompt,
      setPromptType, setState; cbn.
    destruct mt; cbn; tauto.
  - destruct (dt <? 0); cbn; tauto.
  - destruct mt; cbn; [|tauto].
    destruct hc; cbn; [|tauto].
    destruct ft; cbn; tauto.
Qed.

Lemma listening_run (evs : list Event) (s : Session) :
  forallb (fun ev => negb (is_signal ev)) evs = true ->
  listening s -> listening (run s evs).
Proof.
  revert s; induction evs as [|ev evs IH]; intros s Hevs H; [exact H|].
  cbn in Hevs. apply andb_true_iff in Hevs as [Hev Hevs].
  apply (IH _ Hevs), listening_step, H. now apply negb_true_iff.
Qed.

Lemma waiting_render (d : Z) (s : Session) : waiting d s -> render s = None.
Proof.
  intros (Hh & _). unfold render. rewrite Hh. cbn. now rewrite andb_false_r.
Qed.

Lemma waiting_step (d : Z) (s : Session) (ev : Event) :
  is_signal ev = false -> is_unmount ev = false ->
  now (window s) + elapsed [ev] < d ->
  waiting d s ->
  waiting d (step s ev) /\
  now (window (step s ev)) = now (window s) + elapsed [ev].
Proof.
  open_session s. unfold waiting. cbn [hooks closure window mounted
    awaitingChoice nativeFired timers now].
  intros Hs Hu Hlt ([= -> -> ->] & -> & (id & ->) & Hnow & -> & ->).
  destruct ev as [h| | | |a|dt|]; try discriminate;
    unfold step, exec, dispatch, render, elapse; cbn in Hlt |- *;
    rewrite ?Z.add_0_r in *.
  - destruct inst; cbn; (repeat split; [eauto | lia]).
  - repeat split; [eauto | lia].
  - repeat split; [eauto | lia].
  - repeat split; [eauto | lia].
  - destruct (dt <? 0) eqn:Hdt; cbn.
    + apply Z.ltb_lt in Hdt. rewrite Z.max_l by lia.
      repeat split; [eauto | lia | lia].
    + apply Z.ltb_ge in Hdt. rewrite Z.max_r in * by lia.
      unfold expired. cbn.
      destruct (d <=? nw + dt) eqn:Hle; [apply Z.leb_le in Hle; lia|].
      cbn. repeat split; [eauto | lia].
Qed.

Lemma elapsed_nonneg (evs : list Event) : 0 <= elapsed evs.
Proof.
  induction evs as [|[h| | | |a|dt|] evs IH]; cbn [elapsed]; lia.
Qed.

Lemma waiting_run (d : Z) (evs : list Event) (s : Session) :
  forallb (fun ev => negb (is_signal ev)) evs = true ->
  forallb (fun ev => negb (is_unmount ev)) evs = true ->
  now (window s) + elapsed evs < d ->
  waiting d s ->
  waiting d (run s evs) /\
  now (window (run s evs)) = now (window s) + elapsed evs.
Proof.
  revert s; induction evs as [|ev evs IH]; intros s Hs Hu Hlt H.
  - cbn. split; [exact H | lia].
  - cbn in Hs, Hu.
    apply andb_true_iff in Hs as [Hs1 Hs]. apply negb_true_iff in Hs1.
    apply andb_true_iff in Hu as [Hu1 Hu]. apply negb_true_iff in Hu1.
    assert (Hsplit : elapsed (ev :: evs) = elapsed [ev] + elapsed evs)
      by (destruct ev; cbn [elapsed]; lia).
    pose proof (elapsed_nonneg evs) as Hnn.
    destruct (waiting_step d s ev Hs1 Hu1 ltac:(lia) H) as [Hw Hn].
    destruct (IH (step s ev) Hs Hu ltac:(lia) Hw) as [Hw' Hn'].
    change (run s (ev :: evs)) with (run (step s ev) evs).
    split; [exact Hw' | lia].
Qed.

(** When the clock reaches or passes the due time the fallback card appears. *)
Lemma waiting_timeout (d dt : Z) (s : Session) :
  waiting d s ->
  d <= now (window s) + dt ->
  render (step s (Elapse dt)) = Some AndroidFallback.
Proof.
  open_session s. unfold waiting. cbn [hooks closure window mounted
    awaitingChoice nativeFired timers now].
  intros ([= -> -> ->] & -> & (id & ->) & Hnow & -> & ->) Hdt.
  unfold step, exec, dispatch, elapse. cbn.
  destruct (dt <? 0) eqn:Hneg; [apply Z.ltb_lt in Hneg; lia|].
  unfold expired. cbn.
  destruct (d <=? nw + dt) eqn:Hle; [|apply Z.leb_gt in Hle; lia].
  cbn. rewrite Nat.eqb_refl. reflexivity.
Qed.

Lemma run_app (s : Session) (evs evs' : list Event) :
  run s (evs ++ evs') = run (run s evs) evs'.
Proof. apply fold_left_app. Qed.

(** C7. On the native path (classification ['native'], no cooldown), as long
    as no availability signal arrives: on Android nothing is shown before
    3500 ms have passed since mount and the fallback card is on screen the
    moment they have, provided the component is still mounted; on any other
    device nothing is ever shown. *)
Theorem fallback_timeout_policy (e : Env) (t : Z) (ls : gmap string string)
    (evs : list Event) :
  Detected.promptType (detectPlatform e) = Native ->
  cooling t (ls !! DISMISS_KEY) = false ->
  forallb (fun ev => negb (is_signal ev)) evs = true ->
  (isAndroid e = true ->
   forallb (fun ev => negb (is_unmount ev)) evs = true ->
   elapsed evs < 3500 ->
   render (run (mount e t ls) evs) = None /\
   forall dt, 3500 <= elapsed evs + dt ->
     render (run (mount e t ls) (evs ++ [Elapse dt])) = Some AndroidFallback) /\
  (isAndroid e = false -> render (run (mount e t ls) evs) = None).
Proof.
  intros Hd Hc Hs. split.
  - intros Ha Hu Hlt.
    destruct (mount_native_android e t ls Hd Hc Ha) as [Hw Hn].
    destruct (waiting_run (t + 3500) evs (mount e t ls) Hs Hu ltac:(lia) Hw)
      as [Hw' Hn'].
    split; [exact (waiting_render _ _ Hw')|].
    intros dt Hdt. rewrite run_app. cbn [run fold_left].
    apply (waiting_timeout _ _ _ Hw'). lia.
  - intros Ha. apply listening_render, listening_run; [exact Hs|].
    exact (mount_native_other e t ls Hd Hc Ha).
Qed.

Lemma fallback_timeout_policy_witness :
  (isAndroid (browser ua_android_chrome) = true ->
   forallb (fun ev => negb (is_unmount ev))
     [Elapse 1000; AppInstalled; Elapse 2000] = true ->
   elapsed [Elapse 1000; AppInstalled; Elapse 2000] < 3500 ->
   render (run (mount (browser ua_android_chrome) 0 ∅)
             [Elapse 1000; AppInstalled; Elapse 2000]) = None /\
   forall dt, 3500 <= elapsed [Elapse 1000; AppInstalled; Elapse 2000] + dt ->
     render (run (mount (browser ua_android_chrome) 0 ∅)
               ([Elapse 1000; AppInstalled; Elapse 2000] ++ [Elapse dt]))
     = Some AndroidFallback) /\
  (isAndroid (browser ua_android_chrome) = false ->
   render (run (mount (browser ua_android_chrome) 0 ∅)
             [Elapse 1000; AppInstalled; Elapse 2000]) = None).
Proof.
  apply (fallback_timeout_policy (browser ua_android_chrome) 0 ∅
           [Elapse 1000; AppInstalled; Elapse 2000]).
  - vm_compute. reflexivity.
  - reflexivity.
  - reflexivity.
Defined.

(** *** Teardown *)

(** What the cleanup of the native path does and does not do, right after a
    mount: the availability listener is removed and the fallback timeout is
    cleared, the listener for the completed installation stays. *)
Lemma unmount_native (e : Env) (t : Z) (ls : gmap string string) :
  Detected.promptType (detectPlatform e) = Native ->
  cooling t (ls !! DISMISS_KEY) = false ->
  mounted (step (mount e t ls) Unmount) = false /\
  onBeforeInstallPrompt (window (step (mount e t ls) Unmount)) = false /\
  timers (window (step (mount e t ls) Unmount)) = [] /\
  onAppInstalled (window (step (mount e t ls) Unmount)) = true.
Proof.
  intros Hd Hc.
  enter_native_path e ls Hd Hc; destruct (isAndroid e); cbn; repeat split.
Qed.

(** C4 does not hold of the code.  On a desktop browser the listener for
    [appinstalled] is still registered after unmount (only the one for
    [beforeinstallprompt] is removed); on iOS Safari, where the effect
    returns no cleanup at all, the 2500 ms display timeout is still pending
    after unmount. *)
Theorem unmount_leaves_callbacks :
  mounted (run (mount (browser ua_desktop_chrome) 0 ∅) [Unmount]) = false /\
  onBeforeInstallPrompt
    (window (run (mount (browser ua_desktop_chrome) 0 ∅) [Unmount])) = false /\
  onAppInstalled
    (window (run (mount (browser ua_desktop_chrome) 0 ∅) [Unmount])) = true /\
  timers (window (run (mount (browser ua_iphone_safari) 0 ∅) [Unmount]))
  = [{| timerId := 0%nat; due := 2500; callback := ShowPrompt |}].
Proof. repeat split; vm_compute; reflexivity. Qed.

(** *** The completed installation *)

(** C6 does not hold of the code.  On Android, with no availability signal,
    the installation is reported complete one second after mount; when the
    fallback timeout fires at 3500 ms the fallback card is shown all the
    same. *)
Theorem fallback_shown_after_installed :
  onAppInstalled (window (run (mount (browser ua_android_chrome) 0 ∅)
                            [Elapse 1000])) = true /\
  render (run (mount (browser ua_android_chrome) 0 ∅)
            [Elapse 1000; AppInstalled; Elapse 2499]) = None /\
  render (run (mount (browser ua_android_chrome) 0 ∅)
            [Elapse 1000; AppInstalled; Elapse 2500]) = Some AndroidFallback.
Proof. repeat split; vm_compute; reflexivity. Qed.

Lemma exec_bind {A B} (m : M A) (k : A -> M B) (s : Session) :
  exec (bind m k) s = exec (k (fst (m s))) (exec m s).
Proof. unfold exec, bind. now destruct (m s). Qed.

Lemma settled_render (s : Session) : settled s -> render s = None.
Proof.
  intros [[Hm | Hp] _]; unfold render.
  - now rewrite Hm.
  - rewrite Hp. cbn. now rewrite andb_false_r.
Qed.

Lemma insert_timer_Forall (P : Timer -> Prop) (tm : Timer) (l : list Timer) :
  P tm -> Forall P l -> Forall P (insert_timer tm l).
Proof.
  intros Htm Hl. induction Hl as [|u l Hu Hl IH]; cbn.
  - now constructor.
  - destruct (fires_before tm u); repeat constructor; assumption.
Qed.

Lemma expired_Forall (P : Timer -> Prop) (t : Z) (l : list Timer) :
  Forall P l -> Forall P (expired t l).
Proof.
  intros Hl. unfold expired, timeline.
  induction Hl as [|u l Hu Hl IH]; cbn; [constructor|].
  destruct (due u <=? t); cbn; [|exact IH].
  now apply insert_timer_Forall.
Qed.

Lemma filter_Forall (P : Timer -> Prop) (f : Timer -> bool) (l : list Timer) :
  Forall P l -> Forall P (List.filter f l).
Proof.
  intros Hl. induction Hl as [|u l Hu Hl IH]; cbn; [constructor|].
  destruct (f u); [now constructor | exact IH].
Qed.

Lemma settled_fire_timer (tm : Timer) (s : Session) :
  (nativeFired (closure s) = true \/ callback tm = ShowPrompt) ->
  settled s -> settled (exec (fire_timer tm) s).
Proof.
  open_session s. unfold settled. cbn. intros Hcb [Hp Ht].
  assert (Ht' : nf = true \/
                Forall (fun tm0 => callback tm0 = ShowPrompt)
                  (List.filter (fun t0 => negb (Nat.eqb (timerId t0) (timerId tm))) tms)).
  { destruct Ht as [Ht | Ht]; [now left | right; now apply filter_Forall]. }
  destruct tm as [id d cb]. cbn in *.
  unfold exec, fire_timer, bind, fire, setVisible, setPromptType, setState; cbn.
  destruct cb; cbn.
  - destruct mt; cbn; split; assumption.
  - destruct Hcb as [-> | Hcb]; [|discriminate]. cbn. split; [assumption | now left].
Qed.

Lemma settled_fire_all (l : list Timer) (s : Session) :
  (nativeFired (closure s) = true \/
   Forall (fun tm => callback tm = ShowPrompt) l) ->
  settled s -> settled (exec (fire_all l) s).
Proof.
  revert s. induction l as [|tm l IH]; intros s Hl Hs; [exact Hs|].
  assert (Hnf : nativeFired (closure (exec (fire_timer tm) s))
                = nativeFired (closure s)).
  { open_session s. destruct tm as [id d [|]];
      unfold exec, fire_timer, bind, fire, setVisible, setPromptType, setState;
      cbn; [destruct mt | destruct nf; [|destruct mt]]; reflexivity. }
  cbn [fire_all]. rewrite exec_bind.
  apply IH.
  - rewrite Hnf. destruct Hl as [Hl | Hl]; [now left | right].
    now inversion Hl.
  - apply settled_fire_timer; [|exact Hs].
    destruct Hl as [Hl | Hl]; [now left | right]. now inversion Hl.
Qed.

Lemma settled_step (s : Session) (ev : Event) :
  is_signal ev = false -> settled s -> settled (step s ev).
Proof.
  intros Hev Hs.
  destruct ev as [h| | | |a|dt|]; [discriminate | ..];
    unfold step, exec, dispatch.
  - open_session s. unfold settled in *. cbn in *.
    destruct inst; cbn; [|exact Hs].
    unfold installedListener, bind, setVisible, setDeferredPrompt,
      setPromptType, setState; cbn.
    destruct mt; cbn; [|exact Hs]. split; [now right | apply Hs].
  - now rewrite (settled_render s Hs).
  - now rewrite (settled_render s Hs).
  - open_session s. unfold settled in *. cbn in *.
    destruct aw; cbn; [|exact Hs].
    unfold handleInstallResume, bind, setVisible, setDeferredPrompt,
      setPromptType, setState, ret; cbn.
    destruct a, mt; cbn; try exact Hs. split; [now right | apply Hs].
  - unfold elapse. destruct (dt <? 0); [exact Hs|].
    pose proof (settled_fire_all
      (expired (now (window s) + dt) (timers (window s))) s) as Hfire.
    assert (Hl : nativeFired (closure s) = true \/
                 Forall (fun tm => callback tm = ShowPrompt)
                   (expired (now (window s) + dt) (timers (window s)))).
    { destruct Hs as [_ [Hn | Hf]]; [now left | right].
      now apply expired_Forall. }
    specialize (Hfire Hl Hs). unfold exec in Hfire. unfold bind.
    destruct (fire_all _ s) as [u s']. cbn in Hfire |- *.
    unfold settled in *. cbn. exact Hfire.
  - open_session s. unfold settled, unmount in *. cbn in *.
    destruct mt; cbn; [|exact Hs].
    destruct Hs as [_ Ht].
    destruct hc; [destruct ft|]; cbn; (split; [now left|]); try exact Ht.
    destruct Ht as [Ht | Ht]; [now left | right]. now apply filter_Forall.
Qed.

Lemma settled_run (evs : list Event) (s : Session) :
  forallb (fun ev => negb (is_signal ev)) evs = true ->
  settled s -> settled (run s evs).
Proof.
  revert s; induction evs as [|ev evs IH]; intros s Hevs H; [exact H|].
  cbn in Hevs. apply andb_true_iff in Hevs as [Hev Hevs].
  apply (IH _ Hevs), settled_step, H. now apply negb_true_iff.
Qed.

(** What the code does guarantee: once the installation is reported, the
    display-delay timeouts that were pending show nothing when they fire, as
    long as no new availability signal arrives and the fallback timeout is
    not armed. *)
Lemma installed_preempts_display_delay (s : Session) (evs : list Event) :
  onAppInstalled (window s) = true ->
  (nativeFired (closure s) = true \/
   Forall (fun tm => callback tm = ShowPrompt) (timers (window s))) ->
  forallb (fun ev => negb (is_signal ev)) evs = true ->
  render (run (step s AppInstalled) evs) = None.
Proof.
  intros Hl Ht Hevs. apply settled_render, settled_run; [exact Hevs|].
  open_session s. cbn in *. subst inst.
  unfold settled, step, exec, dispatch; cbn.
  unfold installedListener, bind, setVisible, setDeferredPrompt,
    setPromptType, setState; cbn.
  destruct mt; cbn; (split; [auto | exact Ht]).
Qed.

(** The usual order of events: availability signal, installation completed
    before the 1500 ms display delay is over; the delay timer then fires and
    shows nothing. *)
Example installed_before_display_delay :
  render (run (mount (browser ua_android_chrome) 0 ∅)
            [Elapse 200; BeforeInstallPrompt 1%nat; Elapse 700; AppInstalled;
             Elapse 800; Elapse 5000]) = None.
Proof. vm_compute. reflexivity. Qed.

(** A second availability signal after the installation brings the native
    card back. *)
Example signal_after_installed :
  render (run (mount (browser ua_desktop_chrome) 0 ∅)
            [BeforeInstallPrompt 1%nat; AppInstalled;
             BeforeInstallPrompt 2%nat; Elapse 1500]) = Some Native.
Proof. vm_compute. reflexivity. Qed.

End SessionFacts.

(** ** Further properties of the advisor *)

Section Paths.

#[local] Arguments isAndroid : simpl never.
#[local] Arguments detectPlatform : simpl never.

Ltac open_session s :=
  destruct s as [[dp vis pt] [nf ft hc] [bip inst tms nid nw ls cl] mt aw].

Ltac unfold_effect :=
  unfold mount, exec, useEffect, bind, ret, callDetectPlatform, getItem,
    inCooldown, dateNow, setPromptType, setVisible, setDeferredPrompt,
    setState, setTimeout, addEventListener, removeEventListener,
    set_nativeFired, set_fallbackTimer, set_hasCleanup, modify_hooks,
    modify_closure, modify_window, exec, initial.

Lemma guided_test (p : PromptType) :
  bool_decide (p = Wechat) || bool_decide (p = IosSafari)
  || bool_decide (p = IosOther) = guided p.
Proof. destruct p; reflexivity. Qed.

Lemma mount_standalone (e : Env) (t : Z) (ls : gmap string string) :
  isStandaloneEnv e = true ->
  mount e t ls = suppressed t ls [CallDetectPlatform].
Proof.
  intros Hs. unfold_effect. rewrite detectPlatform_isStandalone, Hs.
  reflexivity.
Qed.

Ltac enter_path e ls Hs Hc :=
  unfold_effect; rewrite detectPlatform_isStandalone, Hs, guided_test;
  unfold cooling in Hc; unfold cooldown_calls, guided_session, native_session;
  cbn;
  destruct (ls !! DISMISS_KEY) as [str|]; cbn in Hc |- *;
  [destruct (negb (String.eqb str EmptyString)); cbn in Hc |- *;
   [rewrite Hc|] |]; cbn.

Lemma mount_guided (e : Env) (t : Z) (ls : gmap string string) :
  isStandaloneEnv e = false ->
  cooling t (ls !! DISMISS_KEY) = false ->
  guided (Detected.promptType (detectPlatform e)) = true ->
  mount e t ls = guided_session t ls (Detected.promptType (detectPlatform e)).
Proof.
  intros Hs Hc Hg. enter_path e ls Hs Hc; rewrite Hg; reflexivity.
Qed.

Lemma mount_native (e : Env) (t : Z) (ls : gmap string string) :
  isStandaloneEnv e = false ->
  cooling t (ls !! DISMISS_KEY) = false ->
  guided (Detected.promptType (detectPlatform e)) = false ->
  mount e t ls = native_session t ls (isAndroid e).
Proof.
  intros Hs Hc Hg.
  enter_path e ls Hs Hc; rewrite Hg; destruct (isAndroid e); reflexivity.
Qed.

(** The four ways a mount can end. *)
Lemma mount_paths (e : Env) (t : Z) (ls : gmap string string) :
  (exists cs, mount e t ls = suppressed t ls cs) \/
  (isStandaloneEnv e = false /\ cooling t (ls !! DISMISS_KEY) = false /\
   guided (Detected.promptType (detectPlatform e)) = true /\
   mount e t ls = guided_session t ls (Detected.promptType (detectPlatform e))) \/
  (isStandaloneEnv e = false /\ cooling t (ls !! DISMISS_KEY) = false /\
   Detected.promptType (detectPlatform e) = Native /\
   mount e t ls = native_session t ls (isAndroid e)).
Proof.
  destruct (isStandaloneEnv e) eqn:Hs.
  { left. eexists. now apply mount_standalone. }
  destruct (cooling t (ls !! DISMISS_KEY)) eqn:Hc.
  { left. eexists. now apply mount_suppressed. }
  destruct (guided (Detected.promptType (detectPlatform e))) eqn:Hg.
  { right. left. repeat split; try reflexivity. now apply mount_guided. }
  right. right. repeat split; try reflexivity.
  - revert Hg. unfold detectPlatform. rewrite Hs.
    destruct (isInApp e), (isIOS e), (isSafari e); cbn; congruence.
  - now apply mount_native.
Qed.

(** *** Timers that fire *)

Lemma fire_all_ind (P : Session -> Prop) (Q : Timer -> Prop) :
  (forall s tm, P s -> Q tm -> P (exec (fire_timer tm) s)) ->
  forall l s, Forall Q l -> P s -> P (exec (fire_all l) s).
Proof.
  intros Hstep l. induction l as [|tm l IH]; intros s Hl Hs; [exact Hs|].
  cbn [fire_all]. rewrite exec_bind. inversion Hl; subst.
  apply IH; [assumption | now apply Hstep].
Qed.

Lemma exec_elapse (dt : Z) (s : Session) :
  exec (elapse dt) s =
  if dt <? 0 then s
  else exec (set_now (now (window s) + dt))
         (exec (fire_all (expired (now (window s) + dt) (timers (window s)))) s).
Proof.
  unfold elapse, exec, bind. destruct (dt <? 0); [reflexivity|]. cbn.
  now destruct (fire_all _ s).
Qed.

Lemma expired_none (T : Z) (l : list Timer) :
  Forall (fun tm => T < due tm) l -> expired T l = [].
Proof.
  intros Hl. unfold expired.
  induction Hl as [|tm l Htm Hl IH]; cbn; [reflexivity|].
  destruct (due tm <=? T) eqn:Hle; [apply Z.leb_le in Hle; lia | exact IH].
Qed.

(** What a firing timer leaves alone. *)
Lemma fire_timer_frame (tm : Timer) (s : Session) :
  closure (exec (fire_timer tm) s) = closure s /\
  mounted (exec (fire_timer tm) s) = mounted s /\
  awaitingChoice (exec (fire_timer tm) s) = awaitingChoice s /\
  onBeforeInstallPrompt (window (exec (fire_timer tm) s))
    = onBeforeInstallPrompt (window s) /\
  onAppInstalled (window (exec (fire_timer tm) s)) = onAppInstalled (window s) /\
  localStorage (window (exec (fire_timer tm) s)) = localStorage (window s) /\
  deferredPrompt (hooks (exec (fire_timer tm) s)) = deferredPrompt (hooks s) /\
  timers (window (exec (fire_timer tm) s))
    = List.filter (fun t0 => negb (Nat.eqb (timerId t0) (timerId tm)))
        (timers (window s)).
Proof.
  open_session s. destruct tm as [id d [|]];
    unfold exec, fire_timer, bind, fire, setVisible, setPromptType, setState;
    cbn; [destruct mt | destruct nf; [|destruct mt]]; cbn; repeat split.
Qed.

(** *** The storage *)

Lemma fire_all_storage (l : list Timer) (s : Session) :
  localStorage (window (exec (fire_all l) s)) = localStorage (window s).
Proof.
  apply (fire_all_ind
           (fun s' => localStorage (window s') = localStorage (window s))
           (fun _ => True)).
  - intros s' tm H _. destruct (fire_timer_frame tm s') as (_&_&_&_&_&Hls&_).
    congruence.
  - clear. induction l; constructor; auto.
  - reflexivity.
Qed.

Lemma step_storage (s : Session) (ev : Event) :
  localStorage (window (step s ev)) = localStorage (window s) \/
  (ev = ClickDismiss /\
   localStorage (window (step s ev))
   = <[DISMISS_KEY := Js.toString (now (window s))]> (localStorage (window s))).
Proof.
  destruct ev as [h| | | |a|dt|]; unfold step.
  - left. open_session s. unfold exec, dispatch; cbn.
    destruct bip; cbn; [|reflexivity].
    unfold handler, bind, setDeferredPrompt, setPromptType, setState; cbn.
    destruct mt; reflexivity.
  - left. open_session s. unfold exec, dispatch; cbn.
    destruct inst; cbn; [|reflexivity].
    unfold installedListener, bind, setVisible, setDeferredPrompt,
      setPromptType, setState; cbn.
    destruct mt; reflexivity.
  - unfold exec, dispatch. destruct (render s); [right | now left].
    split; [reflexivity|]. open_session s.
    unfold handleDismiss, bind, setVisible, setState; cbn.
    destruct mt; reflexivity.
  - left. unfold exec, dispatch.
    destruct (render s) as [[]|]; try reflexivity.
    unfold handleInstall. now destruct (deferredPrompt (hooks s)).
  - left. open_session s. unfold exec, dispatch; cbn.
    destruct aw; cbn; [|reflexivity].
    unfold handleInstallResume, bind, setVisible, setDeferredPrompt,
      setPromptType, setState, ret; cbn.
    destruct a, mt; reflexivity.
  - left. change (exec (dispatch (Elapse dt)) s) with (exec (elapse dt) s).
    rewrite exec_elapse. destruct (dt <? 0); [reflexivity|].
    cbn. apply fire_all_storage.
  - left. open_session s. unfold exec, dispatch, unmount; cbn.
    destruct mt; cbn; [|reflexivity].
    destruct hc; [destruct ft|]; reflexivity.
Qed.

Lemma mount_storage (e : Env) (t : Z) (ls : gmap string string) :
  localStorage (window (mount e t ls)) = ls.
Proof.
  destruct (mount_paths e t ls) as [[cs ->] | [(_&_&_&->) | (_&_&_&->)]];
    reflexivity.
Qed.

Lemma run_storage (evs : list Event) (s : Session) :
  (forall k, k <> DISMISS_KEY ->
     localStorage (window (run s evs)) !! k = localStorage (window s) !! k) /\
  (forallb (fun ev => negb (is_dismiss ev)) evs = true ->
     localStorage (window (run s evs)) = localStorage (window s)).
Proof.
  revert s. induction evs as [|ev evs IH]; intros s; [split; reflexivity|].
  change (run s (ev :: evs)) with (run (step s ev) evs).
  destruct (IH (step s ev)) as [IH1 IH2]. split.
  - intros k Hk. rewrite (IH1 k Hk).
    destruct (step_storage s ev) as [-> | [_ ->]]; [reflexivity|].
    now apply lookup_insert_ne.
  - cbn [forallb]. intros Hevs. apply andb_true_iff in Hevs as [Hev Hevs].
    rewrite (IH2 Hevs).
    destruct (step_storage s ev) as [-> | [-> _]]; [reflexivity | discriminate].
Qed.

(** X1. The advisor writes nothing to the storage but the dismissal record:
    every other key reads the same after any sequence of events as it did at
    mount, and with no dismiss click the storage is untouched. *)
Theorem advisor_writes_only_dismissal (e : Env) (t : Z)
    (ls : gmap string string) (evs : list Event) :
  (forall k, k <> DISMISS_KEY ->
     localStorage (window (run (mount e t ls) evs)) !! k = ls !! k) /\
  (forallb (fun ev => negb (is_dismiss ev)) evs = true ->
     localStorage (window (run (mount e t ls) evs)) = ls).
Proof.
  destruct (run_storage evs (mount e t ls)) as [H1 H2].
  rewrite (mount_storage e t ls) in H1, H2. now split.
Qed.

(** *** The first 1500 ms *)

Lemma early_render (T : Z) (s : Session) : early T s -> render s = None.
Proof.
  intros (Hv & _). unfold render. rewrite Hv. now rewrite andb_false_r.
Qed.

Lemma early_step (T : Z) (s : Session) (ev : Event) :
  now (window s) + elapsed [ev] < T ->
  early T s ->
  early T (step s ev) /\
  now (window (step s ev)) = now (window s) + elapsed [ev].
Proof.
  intros Hlt He. pose proof (early_render T s He) as Hr.
  destruct ev as [h| | | |a|dt|]; unfold step; cbn [elapsed] in *;
    rewrite ?Z.add_0_r in *.
  - open_session s. unfold early in *. unfold exec, dispatch; cbn in *.
    destruct He as (-> & Ht & Hn).
    destruct bip; cbn; [|auto].
    unfold handler, bind, setDeferredPrompt, setPromptType, setState,
      setTimeout; cbn.
    destruct mt; cbn; (split; [|reflexivity]); (split; [reflexivity|]);
      (split; [|exact Hn]); apply Forall_app; (split; [exact Ht|]);
      repeat constructor; cbn; lia.
  - open_session s. unfold early in *. unfold exec, dispatch; cbn in *.
    destruct He as (-> & Ht & Hn).
    destruct inst; cbn; [|auto].
    unfold installedListener, bind, setVisible, setDeferredPrompt,
      setPromptType, setState; cbn.
    destruct mt; cbn; auto.
  - unfold exec, dispatch. rewrite Hr. cbn. auto.
  - unfold exec, dispatch. rewrite Hr. cbn. auto.
  - open_session s. unfold early in *. unfold exec, dispatch; cbn in *.
    destruct He as (-> & Ht & Hn).
    destruct aw; cbn; [|auto].
    unfold handleInstallResume, bind, setVisible, setDeferredPrompt,
      setPromptType, setState, ret; cbn.
    destruct a, mt; cbn; auto.
  - change (exec (dispatch (Elapse dt)) s) with (exec (elapse dt) s).
    rewrite exec_elapse.
    destruct (dt <? 0) eqn:Hdt.
    + apply Z.ltb_lt in Hdt. rewrite Z.max_l by lia. split; [exact He | lia].
    + apply Z.ltb_ge in Hdt. rewrite Z.max_r in * by lia.
      destruct He as (Hv & Ht & Hn).
      rewrite expired_none.
      2:{ eapply Forall_impl; [exact Ht|]. cbn. intros; lia. }
      open_session s. unfold early. cbn in *. repeat split; auto; lia.
  - open_session s. unfold early in *. unfold exec, dispatch, unmount; cbn in *.
    destruct He as (-> & Ht & Hn).
    destruct mt; cbn; [|auto].
    destruct hc; [destruct ft|]; cbn; repeat split; auto.
    now apply filter_Forall.
Qed.

Lemma early_run (T : Z) (evs : list Event) (s : Session) :
  now (window s) + elapsed evs < T ->
  early T s -> early T (run s evs).
Proof.
  revert s; induction evs as [|ev evs IH]; intros s Hlt H; [exact H|].
  assert (Hsplit : elapsed (ev :: evs) = elapsed [ev] + elapsed evs)
    by (destruct ev; cbn [elapsed]; lia).
  pose proof (elapsed_nonneg evs) as Hnn.
  destruct (early_step T s ev ltac:(lia) H) as [He Hn].
  change (run s (ev :: evs)) with (run (step s ev) evs).
  apply IH; [lia | exact He].
Qed.

Lemma mount_early (e : Env) (t : Z) (ls : gmap string string) :
  early (t + 1500) (mount e t ls) /\ now (window (mount e t ls)) = t.
Proof.
  destruct (mount_paths e t ls) as [[cs ->] | [(_&_&_&->) | (_&_&_&->)]];
    unfold early; cbn; (split; [|reflexivity]);
    (split; [reflexivity|]); (split; [|lia]).
  - constructor.
  - repeat constructor; cbn; lia.
  - destruct (isAndroid e); repeat constructor; cbn; lia.
Qed.

(** X2. Whatever the platform and whatever happens, no card is on screen
    during the first 1500 ms after mount: every timeout of the component is
    at least that long and starts at mount or later. *)
Theorem no_card_in_first_1500ms (e : Env) (t : Z) (ls : gmap string string)
    (evs : list Event) :
  elapsed evs < 1500 ->
  render (run (mount e t ls) evs) = None.
Proof.
  intros Hlt. destruct (mount_early e t ls) as [He Hn].
  apply (early_render (t + 1500)), early_run; [lia | exact He].
Qed.

Lemma no_card_in_first_1500ms_witness :
  render (run (mount (browser ua_android_chrome) 0 ∅)
            [BeforeInstallPrompt 3%nat; Elapse 1499; ClickInstall]) = None.
Proof. apply no_card_in_first_1500ms. vm_compute. reflexivity. Defined.

(** *** The in-app and iOS path *)

Lemma pending_render (p : PromptType) (d : Z) (s : Session) :
  pending p d s -> render s = None.
Proof.
  intros (Hh & _). unfold render. rewrite Hh. cbn. now rewrite andb_false_r.
Qed.

Lemma pending_step (p : PromptType) (d : Z) (s : Session) (ev : Event) :
  is_unmount ev = false ->
  now (window s) + elapsed [ev] < d ->
  pending p d s ->
  pending p d (step s ev) /\
  now (window (step s ev)) = now (window s) + elapsed [ev].
Proof.
  open_session s. unfold pending. cbn [hooks closure window mounted
    awaitingChoice timers now onBeforeInstallPrompt onAppInstalled].
  intros Hu Hlt ([= -> -> ->] & (id & ->) & Hnow & -> & -> & -> & ->).
  destruct ev as [h| | | |a|dt|]; try discriminate;
    unfold step, exec, dispatch, render, elapse; cbn in Hlt |- *;
    rewrite ?Z.add_0_r in *; try (repeat split; [eauto | lia]).
  destruct (dt <? 0) eqn:Hdt; cbn.
  - apply Z.ltb_lt in Hdt. rewrite Z.max_l by lia.
    repeat split; [eauto | lia | lia].
  - apply Z.ltb_ge in Hdt. rewrite Z.max_r in * by lia.
    unfold expired. cbn.
    destruct (d <=? nw + dt) eqn:Hle; [apply Z.leb_le in Hle; lia|].
    cbn. repeat split; [eauto | lia].
Qed.

Lemma pending_run (p : PromptType) (d : Z) (evs : list Event) (s : Session) :
  forallb (fun ev => negb (is_unmount ev)) evs = true ->
  now (window s) + elapsed evs < d ->
  pending p d s ->
  pending p d (run s evs) /\
  now (window (run s evs)) = now (window s) + elapsed evs.
Proof.
  revert s; induction evs as [|ev evs IH]; intros s Hu Hlt H.
  - cbn. split; [exact H | lia].
  - cbn in Hu. apply andb_true_iff in Hu as [Hu1 Hu].
    apply negb_true_iff in Hu1.
    assert (Hsplit : elapsed (ev :: evs) = elapsed [ev] + elapsed evs)
      by (destruct ev; cbn [elapsed]; lia).
    pose proof (elapsed_nonneg evs) as Hnn.
    destruct (pending_step p d s ev Hu1 ltac:(lia) H) as [Hw Hn].
    destruct (IH (step s ev) Hu ltac:(lia) Hw) as [Hw' Hn'].
    change (run s (ev :: evs)) with (run (step s ev) evs).
    split; [exact Hw' | lia].
Qed.

Lemma pending_timeout (p : PromptType) (d dt : Z) (s : Session) :
  guided p = true ->
  pending p d s ->
  d <= now (window s) + dt ->
  render (step s (Elapse dt)) = Some p.
Proof.
  open_session s. unfold pending. cbn [hooks closure window mounted
    awaitingChoice timers now onBeforeInstallPrompt onAppInstalled].
  intros Hg ([= -> -> ->] & (id & ->) & Hnow & -> & -> & -> & ->) Hdt.
  unfold step, exec, dispatch, elapse. cbn.
  destruct (dt <? 0) eqn:Hneg; [apply Z.ltb_lt in Hneg; lia|].
  unfold expired. cbn.
  destruct (d <=? nw + dt) eqn:Hle; [|apply Z.leb_gt in Hle; lia].
  cbn. rewrite Nat.eqb_refl. destruct p; try discriminate; reflexivity.
Qed.

(** X3. On the in-app and iOS classifications (not standalone, no cooldown),
    while the component stays mounted nothing is shown before 2500 ms have
    passed since mount, and from then on the card of the detected
    classification is on screen; no event can hasten or prevent it. *)
Theorem guided_card_after_2500ms (e : Env) (t : Z) (ls : gmap string string)
    (evs : list Event) :
  isStandaloneEnv e = false ->
  cooling t (ls !! DISMISS_KEY) = false ->
  guided (Detected.promptType (detectPlatform e)) = true ->
  forallb (fun ev => negb (is_unmount ev)) evs = true ->
  elapsed evs < 2500 ->
  render (run (mount e t ls) evs) = None /\
  forall dt, 2500 <= elapsed evs + dt ->
    render (run (mount e t ls) (evs ++ [Elapse dt]))
    = Some (Detected.promptType (detectPlatform e)).
Proof.
  intros Hs Hc Hg Hu Hlt. rewrite (mount_guided e t ls Hs Hc Hg).
  set (p := Detected.promptType (detectPlatform e)) in *.
  assert (Hp : pending p (t + 2500) (guided_session t ls p)).
  { unfold pending, guided_session; cbn. repeat split; [eauto | lia]. }
  assert (Hn0 : now (window (guided_session t ls p)) = t) by reflexivity.
  destruct (pending_run p (t + 2500) evs (guided_session t ls p) Hu
              ltac:(lia) Hp) as [Hp' Hn].
  split; [exact (pending_render _ _ _ Hp')|].
  intros dt Hdt. rewrite run_app. cbn [run fold_left].
  apply (pending_timeout p (t + 2500)); [exact Hg | exact Hp'|].
  lia.
Qed.

Lemma guided_card_after_2500ms_witness :
  render (run (mount (browser ua_iphone_wechat) 0 ∅)
            [Elapse 1000; BeforeInstallPrompt 1%nat; AppInstalled; Elapse 1499])
  = None /\
  forall dt, 2500 <= elapsed [Elapse 1000; BeforeInstallPrompt 1%nat;
                              AppInstalled; Elapse 1499] + dt ->
    render (run (mount (browser ua_iphone_wechat) 0 ∅)
              ([Elapse 1000; BeforeInstallPrompt 1%nat; AppInstalled;
                Elapse 1499] ++ [Elapse dt]))
    = Some (Detected.promptType (detectPlatform (browser ua_iphone_wechat))).
Proof.
  apply guided_card_after_2500ms; vm_compute; reflexivity.
Defined.

(** *** When a mount is suppressed *)

Lemma cooling_spec (t : Z) (v : option string) :
  cooling t v = true <->
  exists str ts, v = Some str /\ Js.parseInt str = Some ts /\ t - ts < COOLDOWN.
Proof.
  unfold cooling. split.
  - destruct v as [str|]; [|discriminate].
    intros H. apply andb_true_iff in H as [_ H]. unfold Js.sub_lt in H.
    destruct (Js.parseInt str) as [ts|] eqn:Hp; [|discriminate].
    exists str, ts. split; [reflexivity|]. split; [exact Hp|].
    now apply Z.ltb_lt.
  - intros (str & ts & -> & Hp & Hlt).
    rewrite (truthy_parseInt _ _ Hp), Hp. cbn. now apply Z.ltb_lt.
Qed.

(** X4. The mount effect registers nothing at all (no listener, no timer)
    exactly when the page is standalone or the stored dismissal record reads,
    by [parseInt], as a time less than 24 hours before now.  A record that is
    24 hours old to the millisecond, that is empty or that does not start
    with a number suppresses nothing. *)
Theorem mount_quiet_iff (e : Env) (t : Z) (ls : gmap string string) :
  quiet (mount e t ls) <->
  isStandaloneEnv e = true \/
  exists str ts, ls !! DISMISS_KEY = Some str /\ Js.parseInt str = Some ts /\
                 t - ts < COOLDOWN.
Proof.
  rewrite <- cooling_spec.
  destruct (isStandaloneEnv e) eqn:Hs.
  { rewrite (mount_standalone e t ls Hs). split; [now left|].
    intros _. apply suppressed_quiet. }
  destruct (cooling t (ls !! DISMISS_KEY)) eqn:Hc.
  { rewrite (mount_suppressed e t ls Hc). split; [now right|].
    intros _. apply suppressed_quiet. }
  split; [|intros [H | H]; discriminate].
  destruct (guided (Detected.promptType (detectPlatform e))) eqn:Hg.
  - rewrite (mount_guided e t ls Hs Hc Hg). unfold quiet; cbn.
    intros (_ & H & _). discriminate.
  - rewrite (mount_native e t ls Hs Hc Hg). unfold quiet; cbn.
    intros (_ & _ & H & _). discriminate.
Qed.

Example record_exactly_24h_old :
  render (run (mount (browser ua_iphone_safari) (1700000000000 + COOLDOWN)
                 dismissed_storage) [Elapse 2500]) = Some IosSafari /\
  render (run (mount (browser ua_iphone_safari) (1700000000000 + COOLDOWN - 1)
                 dismissed_storage) [Elapse 2500]) = None.
Proof. split; vm_compute; reflexivity. Qed.

Example record_not_a_number :
  render (run (mount (browser ua_iphone_safari) one_hour_later
                 {[ DISMISS_KEY := "yesterday" ]}) [Elapse 2500])
  = Some IosSafari.
Proof. vm_compute. reflexivity. Qed.

(** A record from the future (the clock was set back) suppresses until the
    clock has passed it by 24 hours. *)
Example record_from_the_future :
  render (run (mount (browser ua_iphone_safari) 1600000000000
                 dismissed_storage) [Elapse 2500]) = None.
Proof. vm_compute. reflexivity. Qed.

(** White space before the number is trimmed by [parseInt], the no-break
    space included. *)
Example record_after_no_break_space :
  Js.parseInt (String (ascii_of_nat 194) (String (ascii_of_nat 160)
                 "1700000000000")) = Some 1700000000000 /\
  render (run (mount (browser ua_iphone_safari) one_hour_later
                 {[ DISMISS_KEY :=
                      String (ascii_of_nat 194) (String (ascii_of_nat 160)
                        "1700000000000") ]}) [Elapse 2500]) = None.
Proof. split; vm_compute; reflexivity. Qed.

(** The white space of several bytes: U+FEFF, U+2003, U+3000, U+205F and
    U+1680 are trimmed, also mixed with ASCII white space; U+200B (zero
    width space), U+00A1 and U+0085 are not white space. *)
Example parseInt_trims_unicode_space :
  Js.parseInt (bytes [239; 187; 191] "42") = Some 42 /\
  Js.parseInt (bytes [226; 128; 131] "42") = Some 42 /\
  Js.parseInt (bytes [227; 128; 128] "42") = Some 42 /\
  Js.parseInt (bytes [226; 129; 159] "42") = Some 42 /\
  Js.parseInt (bytes [225; 154; 128] "42") = Some 42 /\
  Js.parseInt (bytes [32; 194; 160; 9; 226; 128; 168] "-42") = Some (-42) /\
  Js.parseInt (bytes [226; 128; 139] "42") = None /\
  Js.parseInt (bytes [194; 161] "42") = None /\
  Js.parseInt (bytes [194; 133] "42") = None.
Proof. repeat split; vm_compute; reflexivity. Qed.



(** *** The card fits the platform *)

Lemma sound_fire_timer (e : Env) (s : Session) (tm : Timer) :
  sound e s ->
  (callback tm = FallbackCheck -> fits e AndroidFallback) ->
  sound e (exec (fire_timer tm) s).
Proof.
  open_session s. destruct tm as [id d cb]. unfold sound. cbn.
  intros (Hf & Hb & Ht) Hq.
  assert (Ht' : Forall (fun tm0 => callback tm0 = FallbackCheck ->
                          fits e AndroidFallback)
                  (List.filter (fun t0 => negb (Nat.eqb (timerId t0) id)) tms))
    by now apply filter_Forall.
  unfold exec, fire_timer, bind, fire, setVisible, setPromptType, setState; cbn.
  destruct cb; cbn.
  - destruct mt; cbn; auto.
  - destruct nf; cbn; [auto|]. destruct mt; cbn; auto.
Qed.

Lemma sound_step (e : Env) (s : Session) (ev : Event) :
  sound e s -> sound e (step s ev).
Proof.
  intros Hs. destruct ev as [h| | | |a|dt|]; unfold step.
  - open_session s. unfold sound in *. unfold exec, dispatch; cbn in *.
    destruct Hs as (Hf & Hb & Ht).
    destruct bip; cbn; [|auto].
    unfold handler, bind, setDeferredPrompt, setPromptType, setState,
      setTimeout; cbn.
    assert (Ht' : Forall (fun tm => callback tm = FallbackCheck ->
                            fits e AndroidFallback)
                    (tms ++ [{| timerId := nid; due := nw + 1500;
                                callback := ShowPrompt |}])).
    { apply Forall_app. split; [exact Ht|].
      constructor; [cbn; discriminate | constructor]. }
    destruct mt; cbn; repeat split; auto.
  - open_session s. unfold sound in *. unfold exec, dispatch; cbn in *.
    destruct inst; cbn; [|exact Hs].
    unfold installedListener, bind, setVisible, setDeferredPrompt,
      setPromptType, setState; cbn.
    destruct mt; cbn; [|exact Hs]. destruct Hs as (_ & Hb & Ht). now split.
  - unfold exec, dispatch. destruct (render s); [|exact Hs].
    open_session s. unfold sound in *.
    unfold handleDismiss, bind, setVisible, setState; cbn in *.
    destruct mt; exact Hs.
  - unfold exec, dispatch. destruct (render s) as [[]|]; try exact Hs.
    unfold handleInstall. destruct (deferredPrompt (hooks s)); exact Hs.
  - open_session s. unfold sound in *. unfold exec, dispatch; cbn in *.
    destruct aw; cbn; [|exact Hs].
    unfold handleInstallResume, bind, setVisible, setDeferredPrompt,
      setPromptType, setState, ret; cbn.
    destruct a, mt; cbn; try exact Hs. destruct Hs as (_ & Hb & Ht). now split.
  - change (exec (dispatch (Elapse dt)) s) with (exec (elapse dt) s).
    rewrite exec_elapse. destruct (dt <? 0); [exact Hs|].
    assert (Hfired : sound e (exec (fire_all
              (expired (now (window s) + dt) (timers (window s)))) s)).
    { apply (fire_all_ind (sound e)
               (fun tm => callback tm = FallbackCheck -> fits e AndroidFallback)).
      - intros s' tm H1 H2. now apply sound_fire_timer.
      - apply expired_Forall, Hs.
      - exact Hs. }
    revert Hfired. generalize (exec (fire_all
      (expired (now (window s) + dt) (timers (window s)))) s) as s'.
    intros s'. open_session s'. unfold sound. cbn. auto.
  - open_session s. unfold sound in *. unfold exec, dispatch, unmount; cbn in *.
    destruct Hs as (Hf & Hb & Ht).
    destruct mt; cbn; [|auto].
    destruct hc; [destruct ft|]; cbn; repeat split; auto; try discriminate.
    now apply filter_Forall.
Qed.

Lemma sound_run (e : Env) (evs : list Event) (s : Session) :
  sound e s -> sound e (run s evs).
Proof.
  revert s; induction evs as [|ev evs IH]; intros s H; [exact H|].
  apply IH, sound_step, H.
Qed.

Lemma mount_sound (e : Env) (t : Z) (ls : gmap string string) :
  sound e (mount e t ls).
Proof.
  destruct (mount_paths e t ls)
    as [[cs ->] | [(_&_&Hg&->) | (_&_&Hn&->)]]; unfold sound; cbn.
  - repeat split; [discriminate | constructor].
  - repeat split; [|discriminate | constructor; [cbn; discriminate | constructor]].
    unfold fits. now destruct (Detected.promptType (detectPlatform e)).
  - repeat split; [auto|].
    destruct (isAndroid e) eqn:Ha; constructor; [cbn; auto | constructor].
Qed.

(** X5. The card on screen always fits the platform, whatever happened
    before: an in-app or iOS card is the one of the detected classification,
    the native card and the Android fallback card only appear when the
    classification is native, and the fallback card only when the user agent
    matches Android. *)
Theorem shown_card_fits_platform (e : Env) (t : Z) (ls : gmap string string)
    (evs : list Event) (p : PromptType) :
  render (run (mount e t ls) evs) = Some p ->
  p <> PNone /\
  (guided p = true -> p = Detected.promptType (detectPlatform e)) /\
  (guided p = false -> Detected.promptType (detectPlatform e) = Native) /\
  (p = AndroidFallback -> isAndroid e = true).
Proof.
  intros Hr. destruct (render_shown _ _ Hr) as (_ & _ & Hp).
  destruct (sound_run e evs _ (mount_sound e t ls)) as (Hf & _).
  rewrite Hp in Hf. clear Hp.
  assert (Hne : p <> PNone).
  { revert Hr. unfold render.
    destruct (mounted _ && visible _); cbn; [|discriminate].
    destruct (bool_decide_reflect
                (promptType (hooks (run (mount e t ls) evs)) = PNone));
      cbn; [discriminate|]. congruence. }
  split; [exact Hne|].
  destruct p; cbn in Hf |- *; repeat split; intros; try discriminate;
    try congruence; tauto.
Qed.

Lemma shown_card_fits_platform_witness :
  AndroidFallback <> PNone /\
  (guided AndroidFallback = true ->
   AndroidFallback
   = Detected.promptType (detectPlatform (browser ua_android_chrome))) /\
  (guided AndroidFallback = false ->
   Detected.promptType (detectPlatform (browser ua_android_chrome)) = Native) /\
  (AndroidFallback = AndroidFallback ->
   isAndroid (browser ua_android_chrome) = true).
Proof.
  apply (shown_card_fits_platform (browser ua_android_chrome) 0 ∅
           [Elapse 3500] AndroidFallback).
  vm_compute. reflexivity.
Defined.

(** *** What the cleanup reaches *)

Lemma tidy_fire_timer (s : Session) (tm : Timer) :
  tidy s -> tidy (exec (fire_timer tm) s).
Proof.
  intros (Hb & Ht).
  destruct (fire_timer_frame tm s) as (Hc & Hm & _ & Hbip & _ & _ & _ & Htm).
  unfold tidy. rewrite Hc, Hm, Hbip, Htm. split; [exact Hb|].
  now apply filter_Forall.
Qed.

Lemma tidy_step (s : Session) (ev : Event) : tidy s -> tidy (step s ev).
Proof.
  intros Hs. destruct ev as [h| | | |a|dt|]; unfold step.
  - open_session s. unfold tidy in *. unfold exec, dispatch; cbn in *.
    destruct Hs as (Hb & Ht).
    destruct bip; cbn; [|auto].
    unfold handler, bind, setDeferredPrompt, setPromptType, setState,
      setTimeout; cbn.
    assert (Ht' : Forall (fun tm => callback tm = FallbackCheck ->
                            mt = true /\ hc = true /\ ft = Some (timerId tm))
                    (tms ++ [{| timerId := nid; due := nw + 1500;
                                callback := ShowPrompt |}])).
    { apply Forall_app. split; [exact Ht|].
      constructor; [cbn; discriminate | constructor]. }
    destruct mt; cbn; split; auto.
  - open_session s. unfold tidy in *. unfold exec, dispatch; cbn in *.
    destruct inst; cbn; [|exact Hs].
    unfold installedListener, bind, setVisible, setDeferredPrompt,
      setPromptType, setState; cbn.
    destruct mt; cbn; exact Hs.
  - unfold exec, dispatch. destruct (render s); [|exact Hs].
    open_session s. unfold tidy in *.
    unfold handleDismiss, bind, setVisible, setState; cbn in *.
    destruct mt; exact Hs.
  - unfold exec, dispatch. destruct (render s) as [[]|]; try exact Hs.
    unfold handleInstall. destruct (deferredPrompt (hooks s)); exact Hs.
  - open_session s. unfold tidy in *. unfold exec, dispatch; cbn in *.
    destruct aw; cbn; [|exact Hs].
    unfold handleInstallResume, bind, setVisible, setDeferredPrompt,
      setPromptType, setState, ret; cbn.
    destruct a, mt; cbn; exact Hs.
  - change (exec (dispatch (Elapse dt)) s) with (exec (elapse dt) s).
    rewrite exec_elapse. destruct (dt <? 0); [exact Hs|].
    assert (Hfired : tidy (exec (fire_all
              (expired (now (window s) + dt) (timers (window s)))) s)).
    { apply (fire_all_ind tidy (fun _ => True)).
      - intros s' tm H1 _. now apply tidy_fire_timer.
      - generalize (expired (now (window s) + dt) (timers (window s))).
        intros l. induction l; constructor; auto.
      - exact Hs. }
    revert Hfired. generalize (exec (fire_all
      (expired (now (window s) + dt) (timers (window s)))) s) as s'.
    intros s'. open_session s'. unfold tidy. cbn. auto.
  - open_session s. unfold tidy in *. unfold exec, dispatch, unmount; cbn in *.
    destruct Hs as (Hb & Ht).
    destruct mt; cbn; [|auto].
    assert (Hgone : forall l, Forall (fun tm => callback tm = FallbackCheck ->
                                 False) l ->
              Forall (fun tm => callback tm = FallbackCheck ->
                        false = true /\ hc = true /\ ft = Some (timerId tm)) l).
    { intros l Hl. eapply Forall_impl; [exact Hl|]. cbn. tauto. }
    destruct hc; [destruct ft as [id|]|]; cbn;
      (split; [intros H; first [discriminate | now destruct (Hb H)]|]);
      apply Hgone.
    + clear -Ht. induction Ht as [|tm l Htm Hl IH]; cbn; [constructor|].
      destruct (Nat.eqb (timerId tm) id) eqn:Hid; cbn; [exact IH|].
      constructor; [|exact IH]. intros Hcb.
      destruct (Htm Hcb) as (_ & _ & [= ->]).
      now rewrite Nat.eqb_refl in Hid.
    + eapply Forall_impl; [exact Ht|]. cbn. intros tm H Hcb.
      destruct (H Hcb) as (_ & _ & [=]).
    + eapply Forall_impl; [exact Ht|]. cbn. intros tm H Hcb.
      destruct (H Hcb) as (_ & [=] & _).
Qed.

Lemma tidy_run (evs : list Event) (s : Session) : tidy s -> tidy (run s evs).
Proof.
  revert s; induction evs as [|ev evs IH]; intros s H; [exact H|].
  apply IH, tidy_step, H.
Qed.

Lemma mount_tidy (e : Env) (t : Z) (ls : gmap string string) :
  tidy (mount e t ls).
Proof.
  destruct (mount_paths e t ls)
    as [[cs ->] | [(_&_&_&->) | (_&_&_&->)]]; unfold tidy; cbn.
  - split; [discriminate | constructor].
  - split; [discriminate | constructor; [cbn; discriminate | constructor]].
  - split; [auto|]. destruct (isAndroid e); constructor; [cbn; auto | constructor].
Qed.

Lemma unmounted_step (s : Session) (ev : Event) :
  mounted s = false -> mounted (step s ev) = false.
Proof.
  intros Hm. destruct ev as [h| | | |a|dt|]; unfold step.
  - open_session s. cbn in Hm. subst mt. unfold exec, dispatch; cbn.
    now destruct bip.
  - open_session s. cbn in Hm. subst mt. unfold exec, dispatch; cbn.
    now destruct inst.
  - unfold exec, dispatch, render. rewrite Hm. exact Hm.
  - unfold exec, dispatch, render. rewrite Hm. exact Hm.
  - open_session s. cbn in Hm. subst mt. unfold exec, dispatch; cbn.
    destruct aw; [|reflexivity]. now destruct a.
  - change (exec (dispatch (Elapse dt)) s) with (exec (elapse dt) s).
    rewrite exec_elapse. destruct (dt <? 0); [exact Hm|].
    cbn. apply (fire_all_ind (fun s' => mounted s' = false) (fun _ => True)).
    + intros s' tm H _. destruct (fire_timer_frame tm s') as (_ & H' & _).
      congruence.
    + generalize (expired (now (window s) + dt) (timers (window s))).
      intros l. induction l; constructor; auto.
    + exact Hm.
  - unfold exec, dispatch, unmount. now rewrite Hm.
Qed.

Lemma unmounted_run (evs : list Event) (s : Session) :
  mounted s = false -> mounted (run s evs) = false.
Proof.
  revert s; induction evs as [|ev evs IH]; intros s H; [exact H|].
  apply IH, unmounted_step, H.
Qed.

Lemma unmount_unmounts (s : Session) : mounted (step s Unmount) = false.
Proof.
  open_session s. unfold step, exec, dispatch, unmount; cbn.
  destruct mt; [|reflexivity]. destruct hc; [destruct ft|]; reflexivity.
Qed.

(** X6. Whenever the component is unmounted, and whatever happens later, the
    cleanup has done its part for good: the handler for the availability
    signal is not registered and no fallback timeout is pending (the only
    timeouts that can be left are display delays). *)
Theorem unmount_releases_handler_and_fallback (e : Env) (t : Z)
    (ls : gmap string string) (evs evs' : list Event) :
  onBeforeInstallPrompt
    (window (run (mount e t ls) (evs ++ Unmount :: evs'))) = false /\
  Forall (fun tm => callback tm = ShowPrompt)
    (timers (window (run (mount e t ls) (evs ++ Unmount :: evs')))).
Proof.
  pose proof (tidy_run (evs ++ Unmount :: evs') _ (mount_tidy e t ls))
    as (Hb & Ht).
  assert (Hm : mounted (run (mount e t ls) (evs ++ Unmount :: evs')) = false).
  { rewrite run_app.
    change (run ?s (Unmount :: evs')) with (run (step s Unmount) evs').
    apply unmounted_run, unmount_unmounts. }
  rewrite Hm in Hb, Ht. split.
  - destruct (onBeforeInstallPrompt _); [|reflexivity].
    destruct Hb as [[=] _]. reflexivity.
  - eapply Forall_impl; [exact Ht|]. cbn. intros tm H.
    destruct (callback tm); [reflexivity|].
    destruct H as [[=] _]. reflexivity.
Qed.

(** The signal after a teardown, as in the scenario of the specification:
    unmount at 500 ms, signal at 1000 ms, nothing is ever shown and no timer
    is set. *)
Example signal_after_unmount :
  render (run (mount (browser ua_android_chrome) 0 ∅)
            [Elapse 500; Unmount; Elapse 500; BeforeInstallPrompt 1%nat;
             Elapse 5000]) = None /\
  timers (window (run (mount (browser ua_android_chrome) 0 ∅)
                    [Elapse 500; Unmount; Elapse 500;
                     BeforeInstallPrompt 1%nat])) = [].
Proof. split; vm_compute; reflexivity. Qed.

(** *** The native path, signal received *)

Lemma ready_step (od : option Z) (s : Session) (ev : Event) :
  is_signal ev = false -> is_unmount ev = false ->
  match od with
  | Some d => now (window s) + elapsed [ev] < d
  | None => True
  end ->
  ready od s ->
  ready od (step s ev) /\
  now (window (step s ev)) = now (window s) + elapsed [ev].
Proof.
  open_session s. unfold ready. cbn [hooks closure window mounted
    awaitingChoice nativeFired timers now onBeforeInstallPrompt nextTimerId].
  intros Hs Hu Hlt ([= -> -> ->] & -> & -> & -> & -> & Hod).
  destruct ev as [h| | | |a|dt|]; try discriminate;
    unfold step, exec, dispatch, render, elapse; cbn in Hlt |- *;
    rewrite ?Z.add_0_r in *.
  - destruct inst; cbn; auto 10.
  - auto 10.
  - auto 10.
  - auto 10.
  - destruct (dt <? 0) eqn:Hdt; cbn.
    + apply Z.ltb_lt in Hdt. rewrite Z.max_l by lia.
      rewrite Z.add_0_r. auto 10.
    + apply Z.ltb_ge in Hdt. rewrite Z.max_r in * by lia.
      destruct od as [d|].
      * destruct Hod as ((id & -> & Hid) & Hnow). unfold expired. cbn.
        destruct (d <=? nw + dt) eqn:Hle; [apply Z.leb_le in Hle; lia|].
        cbn. repeat split; [eauto | lia].
      * rewrite Hod. cbn. auto 10.
Qed.

Lemma ready_run (od : option Z) (evs : list Event) (s : Session) :
  forallb (fun ev => negb (is_signal ev)) evs = true ->
  forallb (fun ev => negb (is_unmount ev)) evs = true ->
  match od with
  | Some d => now (window s) + elapsed evs < d
  | None => True
  end ->
  ready od s ->
  ready od (run s evs) /\
  now (window (run s evs)) = now (window s) + elapsed evs.
Proof.
  revert s; induction evs as [|ev evs IH]; intros s Hs Hu Hlt H.
  - cbn. split; [exact H | lia].
  - cbn in Hs, Hu.
    apply andb_true_iff in Hs as [Hs1 Hs]. apply negb_true_iff in Hs1.
    apply andb_true_iff in Hu as [Hu1 Hu]. apply negb_true_iff in Hu1.
    assert (Hsplit : elapsed (ev :: evs) = elapsed [ev] + elapsed evs)
      by (destruct ev; cbn [elapsed]; lia).
    pose proof (elapsed_nonneg evs) as Hnn.
    assert (Hlt1 : match od with
                   | Some d => now (window s) + elapsed [ev] < d
                   | None => True
                   end) by (destruct od; [lia | exact I]).
    destruct (ready_step od s ev Hs1 Hu1 Hlt1 H) as [Hw Hn].
    assert (Hlt2 : match od with
                   | Some d => now (window (step s ev)) + elapsed evs < d
                   | None => True
                   end) by (destruct od; [lia | exact I]).
    destruct (IH (step s ev) Hs Hu Hlt2 Hw) as [Hw' Hn'].
    change (run s (ev :: evs)) with (run (step s ev) evs).
    split; [exact Hw' | lia].
Qed.

Lemma ready_signal (od : option Z) (h : Handle) (s : Session) :
  ready od s ->
  armed h (now (window s) + 1500) (step s (BeforeInstallPrompt h)) /\
  now (window (step s (BeforeInstallPrompt h))) = now (window s).
Proof.
  open_session s. unfold ready, armed. cbn [hooks closure window mounted
    awaitingChoice nativeFired timers now onBeforeInstallPrompt nextTimerId].
  intros ([= -> -> ->] & -> & -> & -> & -> & Hod).
  unfold step, exec, dispatch; cbn.
  split; [|reflexivity]. repeat split; [lia|]. exists nid.
  destruct od as [d|].
  - destruct Hod as ((id & -> & Hid) & _). right. exists id, d.
    split; [lia | reflexivity].
  - rewrite Hod. now left.
Qed.

Lemma armed_render (h : Handle) (d : Z) (s : Session) :
  armed h d s -> render s = None.
Proof.
  intros (Hh & _). unfold render. rewrite Hh. cbn. now rewrite andb_false_r.
Qed.

Lemma armed_step (h : Handle) (d : Z) (s : Session) (ev : Event) :
  is_signal ev = false -> is_unmount ev = false -> is_installed ev = false ->
  now (window s) + elapsed [ev] < d ->
  armed h d s ->
  armed h d (step s ev) /\
  now (window (step s ev)) = now (window s) + elapsed [ev].
Proof.
  open_session s. unfold armed. cbn [hooks closure window mounted
    awaitingChoice nativeFired timers now].
  intros Hs Hu Hi Hlt ([= -> -> ->] & -> & -> & -> & Hnow & id & Htm).
  destruct ev as [h'| | | |a|dt|]; try discriminate;
    unfold step, exec, dispatch, render, elapse; cbn in Hlt |- *;
    rewrite ?Z.add_0_r in *.
  - repeat split; eauto.
  - repeat split; eauto.
  - repeat split; eauto.
  - destruct (dt <? 0) eqn:Hdt; cbn.
    + apply Z.ltb_lt in Hdt. rewrite Z.max_l by lia.
      rewrite Z.add_0_r. repeat split; eauto.
    + apply Z.ltb_ge in Hdt. rewrite Z.max_r in * by lia.
      destruct (d <=? nw + dt) eqn:Hle; [apply Z.leb_le in Hle; lia|].
      destruct Htm as [-> | (id0 & d0 & Hne & ->)]; unfold expired; cbn;
        rewrite Hle; cbn.
      * repeat split; [lia | eauto].
      * destruct (d0 <=? nw + dt); cbn.
        -- rewrite Nat.eqb_refl. cbn.
           destruct (Nat.eqb id id0) eqn:Hid;
             [apply Nat.eqb_eq in Hid; congruence|].
           cbn. repeat split; [lia | eauto].
        -- repeat split; [lia|]. exists id. right. eauto.
Qed.

Lemma armed_run (h : Handle) (d : Z) (evs : list Event) (s : Session) :
  forallb (fun ev => negb (is_signal ev)) evs = true ->
  forallb (fun ev => negb (is_unmount ev)) evs = true ->
  forallb (fun ev => negb (is_installed ev)) evs = true ->
  now (window s) + elapsed evs < d ->
  armed h d s ->
  armed h d (run s evs) /\
  now (window (run s evs)) = now (window s) + elapsed evs.
Proof.
  revert s; induction evs as [|ev evs IH]; intros s Hs Hu Hi Hlt H.
  - cbn. split; [exact H | lia].
  - cbn in Hs, Hu, Hi.
    apply andb_true_iff in Hs as [Hs1 Hs]. apply negb_true_iff in Hs1.
    apply andb_true_iff in Hu as [Hu1 Hu]. apply negb_true_iff in Hu1.
    apply andb_true_iff in Hi as [Hi1 Hi]. apply negb_true_iff in Hi1.
    assert (Hsplit : elapsed (ev :: evs) = elapsed [ev] + elapsed evs)
      by (destruct ev; cbn [elapsed]; lia).
    pose proof (elapsed_nonneg evs) as Hnn.
    destruct (armed_step h d s ev Hs1 Hu1 Hi1 ltac:(lia) H) as [Hw Hn].
    destruct (IH (step s ev) Hs Hu Hi ltac:(lia) Hw) as [Hw' Hn'].
    change (run s (ev :: evs)) with (run (step s ev) evs).
    split; [exact Hw' | lia].
Qed.

Lemma armed_timeout (h : Handle) (d dt : Z) (s : Session) :
  armed h d s ->
  d <= now (window s) + dt ->
  render (step s (Elapse dt)) = Some Native.
Proof.
  open_session s. unfold armed. cbn [hooks closure window mounted
    awaitingChoice nativeFired timers now].
  intros ([= -> -> ->] & -> & -> & -> & Hnow & id & Htm) Hdt.
  unfold step, exec, dispatch, elapse. cbn.
  destruct (dt <? 0) eqn:Hneg; [apply Z.ltb_lt in Hneg; lia|].
  destruct (d <=? nw + dt) eqn:Hle; [|apply Z.leb_gt in Hle; lia].
  destruct Htm as [-> | (id0 & d0 & Hne & ->)]; unfold expired; cbn;
    rewrite Hle; cbn.
  - rewrite Nat.eqb_refl. reflexivity.
  - assert (Hid : Nat.eqb id id0 = false) by (apply Nat.eqb_neq; congruence).
    assert (Hid' : Nat.eqb id0 id = false) by now apply Nat.eqb_neq.
    destruct (d0 <=? nw + dt); cbn.
    + unfold fires_before; cbn.
      destruct ((d0 <? d) || (d0 =? d) && (id0 <=? id)%nat); cbn;
        rewrite ?Nat.eqb_refl, ?Hid, ?Hid'; cbn;
        rewrite ?Nat.eqb_refl, ?Hid, ?Hid'; reflexivity.
    + rewrite Nat.eqb_refl, ?Hid, ?Hid'. reflexivity.
Qed.

Lemma native_session_ready (t : Z) (ls : gmap string string) (android : bool) :
  ready (if android then Some (t + 3500) else None)
    (native_session t ls android).
Proof.
  unfold ready, native_session. destruct android; cbn;
    repeat split; [eauto | lia].
Qed.

Lemma mount_native_ready (e : Env) (t : Z) (ls : gmap string string) :
  Detected.promptType (detectPlatform e) = Native ->
  cooling t (ls !! DISMISS_KEY) = false ->
  ready (if isAndroid e then Some (t + 3500) else None) (mount e t ls) /\
  now (window (mount e t ls)) = t.
Proof.
  intros Hd Hc.
  rewrite (mount_native e t ls (native_not_standalone e Hd) Hc)
    by now rewrite Hd.
  split; [apply native_session_ready | reflexivity].
Qed.

(** X7. On the native path, when the availability signal arrives before
    anything is shown (on Android: before the 3500 ms fallback timeout), the
    native card stays hidden for 1500 ms after the signal and is on screen
    from then on, provided that meanwhile the component stays mounted and
    neither a second signal nor a completed installation is reported.  The
    fallback timeout, if it fires in between, changes nothing. *)
Theorem native_card_after_signal (e : Env) (t : Z) (ls : gmap string string)
    (evs1 evs2 : list Event) (h : Handle) :
  Detected.promptType (detectPlatform e) = Native ->
  cooling t (ls !! DISMISS_KEY) = false ->
  forallb (fun ev => negb (is_signal ev)) evs1 = true ->
  forallb (fun ev => negb (is_unmount ev)) evs1 = true ->
  (isAndroid e = true -> elapsed evs1 < 3500) ->
  forallb (fun ev => negb (is_signal ev)) evs2 = true ->
  forallb (fun ev => negb (is_unmount ev)) evs2 = true ->
  forallb (fun ev => negb (is_installed ev)) evs2 = true ->
  elapsed evs2 < 1500 ->
  render (run (mount e t ls) (evs1 ++ BeforeInstallPrompt h :: evs2)) = None /\
  forall dt, 1500 <= elapsed evs2 + dt ->
    render (run (mount e t ls)
              (evs1 ++ BeforeInstallPrompt h :: evs2 ++ [Elapse dt]))
    = Some Native.
Proof.
  intros Hd Hc Hs1 Hu1 Ha Hs2 Hu2 Hi2 Hlt.
  destruct (mount_native_ready e t ls Hd Hc) as [Hr Hn].
  assert (Hbound : match (if isAndroid e then Some (t + 3500) else None) with
                   | Some d => now (window (mount e t ls)) + elapsed evs1 < d
                   | None => True
                   end).
  { destruct (isAndroid e); [|exact I]. specialize (Ha eq_refl). lia. }
  destruct (ready_run _ evs1 _ Hs1 Hu1 Hbound Hr) as [Hr1 Hn1].
  destruct (ready_signal _ h _ Hr1) as [Harm Hn2].
  set (s1 := step (run (mount e t ls) evs1) (BeforeInstallPrompt h)) in *.
  destruct (armed_run h (now (window (run (mount e t ls) evs1)) + 1500) evs2
              s1 Hs2 Hu2 Hi2 ltac:(lia) Harm) as [Harm' Hn3].
  assert (Hrun : forall l, run (mount e t ls) (evs1 ++ BeforeInstallPrompt h :: l)
                           = run s1 l).
  { intros l. now rewrite run_app. }
  rewrite Hrun. split; [exact (armed_render _ _ _ Harm')|].
  intros dt Hdt. rewrite Hrun, run_app. cbn [run fold_left].
  apply (armed_timeout h _ dt _ Harm'). lia.
Qed.

Lemma native_card_after_signal_witness :
  render (run (mount (browser ua_android_chrome) 0 ∅)
            ([Elapse 2500] ++ BeforeInstallPrompt 7%nat :: [Elapse 1200]))
  = None /\
  forall dt, 1500 <= elapsed [Elapse 1200] + dt ->
    render (run (mount (browser ua_android_chrome) 0 ∅)
              ([Elapse 2500] ++ BeforeInstallPrompt 7%nat
                 :: [Elapse 1200] ++ [Elapse dt]))
    = Some Native.
Proof.
  apply native_card_after_signal; reflexivity.
Defined.

Lemma ready_timeout_signal (d dt : Z) (h : Handle) (s : Session) :
  ready (Some d) s ->
  d <= now (window s) + dt ->
  render (step s (Elapse dt)) = Some AndroidFallback /\
  render (step (step s (Elapse dt)) (BeforeInstallPrompt h)) = Some Native.
Proof.
  open_session s. unfold ready. cbn [hooks closure window mounted
    awaitingChoice nativeFired timers now onBeforeInstallPrompt nextTimerId].
  intros ([= -> -> ->] & -> & -> & -> & -> & (id & -> & Hid) & Hnow) Hdt.
  unfold step, exec, dispatch, elapse. cbn.
  destruct (dt <? 0) eqn:Hneg; [apply Z.ltb_lt in Hneg; lia|].
  unfold expired. cbn.
  destruct (d <=? nw + dt) eqn:Hle; [|apply Z.leb_gt in Hle; lia].
  cbn. rewrite Nat.eqb_refl. split; reflexivity.
Qed.

(** X8. On Android, a signal that arrives after the fallback card came up
    replaces it by the native card at once, without the 1500 ms delay: the
    card is already visible and only its type changes. *)
Theorem late_signal_replaces_fallback (e : Env) (t : Z)
    (ls : gmap string string) (evs : list Event) (dt : Z) (h : Handle) :
  Detected.promptType (detectPlatform e) = Native ->
  cooling t (ls !! DISMISS_KEY) = false ->
  isAndroid e = true ->
  forallb (fun ev => negb (is_signal ev)) evs = true ->
  forallb (fun ev => negb (is_unmount ev)) evs = true ->
  elapsed evs < 3500 ->
  3500 <= elapsed evs + dt ->
  render (run (mount e t ls) (evs ++ [Elapse dt])) = Some AndroidFallback /\
  render (run (mount e t ls) (evs ++ [Elapse dt; BeforeInstallPrompt h]))
  = Some Native.
Proof.
  intros Hd Hc Ha Hs Hu Hlt Hdt.
  destruct (mount_native_ready e t ls Hd Hc) as [Hr Hn]. rewrite Ha in Hr.
  assert (Hb : now (window (mount e t ls)) + elapsed evs < t + 3500) by lia.
  destruct (ready_run (Some (t + 3500)) evs (mount e t ls) Hs Hu Hb Hr)
    as [Hr1 Hn1].
  rewrite !run_app. cbn [run fold_left].
  apply (ready_timeout_signal (t + 3500)); [exact Hr1 | lia].
Qed.

Lemma late_signal_replaces_fallback_witness :
  render (run (mount (browser ua_android_chrome) 0 ∅)
            ([Elapse 1000] ++ [Elapse 3000])) = Some AndroidFallback /\
  render (run (mount (browser ua_android_chrome) 0 ∅)
            ([Elapse 1000] ++ [Elapse 3000; BeforeInstallPrompt 2%nat]))
  = Some Native.
Proof.
  apply late_signal_replaces_fallback; vm_compute; reflexivity || discriminate.
Defined.

(** *** The install flow *)

(** X9. With the native card on screen and a captured handle, clicking
    install leaves the card up while the browser dialog is open; once the
    dialog is answered the card is hidden and the handle discarded whatever
    the answer, the prompt type becomes ['none'] on acceptance and stays
    ['native'] on rejection, and the storage is not written: a rejection in
    the browser dialog starts no cooldown. *)
Theorem install_dialog_outcome (s : Session) (h : Handle) (accepted : bool) :
  render s = Some Native ->
  deferredPrompt (hooks s) = Some h ->
  render (step s ClickInstall) = Some Native /\
  render (run s [ClickInstall; UserChoice accepted]) = None /\
  deferredPrompt (hooks (run s [ClickInstall; UserChoice accepted])) = None /\
  promptType (hooks (run s [ClickInstall; UserChoice accepted]))
    = (if accepted then PNone else Native) /\
  localStorage (window (run s [ClickInstall; UserChoice accepted]))
    = localStorage (window s).
Proof.
  intros Hr Hh. destruct (render_shown s Native Hr) as (Hm & Hv & Hp).
  cbn [run fold_left]. unfold step at 1 3 5 7 9. unfold exec, dispatch.
  rewrite Hr. unfold handleInstall. rewrite Hh.
  open_session s. cbn in *. subst mt vis pt dp.
  unfold step, exec, dispatch; cbn.
  destruct accepted; cbn; repeat split.
Qed.

Lemma install_dialog_outcome_witness :
  render (step (run (mount (browser ua_desktop_chrome) 0 ∅)
                  [BeforeInstallPrompt 5%nat; Elapse 1500]) ClickInstall)
  = Some Native /\
  render (run (run (mount (browser ua_desktop_chrome) 0 ∅)
                 [BeforeInstallPrompt 5%nat; Elapse 1500])
            [ClickInstall; UserChoice false]) = None /\
  deferredPrompt
    (hooks (run (run (mount (browser ua_desktop_chrome) 0 ∅)
                   [BeforeInstallPrompt 5%nat; Elapse 1500])
              [ClickInstall; UserChoice false])) = None /\
  promptType
    (hooks (run (run (mount (browser ua_desktop_chrome) 0 ∅)
                   [BeforeInstallPrompt 5%nat; Elapse 1500])
              [ClickInstall; UserChoice false]))
    = (if false then PNone else Native) /\
  localStorage
    (window (run (run (mount (browser ua_desktop_chrome) 0 ∅)
                    [BeforeInstallPrompt 5%nat; Elapse 1500])
               [ClickInstall; UserChoice false]))
    = localStorage
        (window (run (mount (browser ua_desktop_chrome) 0 ∅)
                   [BeforeInstallPrompt 5%nat; Elapse 1500])).
Proof.
  apply (install_dialog_outcome _ 5%nat false); vm_compute; reflexivity.
Defined.

(** A native card without a handle has a dead install button.  It comes up
    when two signals arrive close together and the dialog of the first is
    answered by a rejection before the second display delay is over. *)
Example install_button_without_handle :
  render (run (mount (browser ua_desktop_chrome) 0 ∅)
            [BeforeInstallPrompt 1%nat; Elapse 100; BeforeInstallPrompt 2%nat;
             Elapse 1400; ClickInstall; UserChoice false; Elapse 100])
  = Some Native /\
  deferredPrompt
    (hooks (run (mount (browser ua_desktop_chrome) 0 ∅)
              [BeforeInstallPrompt 1%nat; Elapse 100; BeforeInstallPrompt 2%nat;
               Elapse 1400; ClickInstall; UserChoice false; Elapse 100]))
  = None.
Proof. split; vm_compute; reflexivity. Qed.

Lemma signalled_fire_timer (s : Session) (tm : Timer) :
  signalled s -> signalled (exec (fire_timer tm) s).
Proof.
  open_session s. destruct tm as [id d cb]. unfold signalled.
  unfold exec, fire_timer, bind, fire, setVisible, setPromptType, setState;
    cbn.
  destruct cb; cbn.
  - destruct mt; cbn; auto.
  - destruct nf; cbn; [auto|]. destruct mt; cbn; auto. discriminate.
Qed.

Lemma signalled_step (s : Session) (ev : Event) :
  signalled s -> signalled (step s ev).
Proof.
  intros Hs. destruct ev as [h| | | |a|dt|]; unfold step.
  - open_session s. unfold signalled in *. unfold exec, dispatch; cbn in *.
    destruct bip; cbn; [|exact Hs].
    unfold handler, bind, setDeferredPrompt, setPromptType, setState,
      setTimeout; cbn.
    destruct mt; cbn; auto.
  - open_session s. unfold signalled in *. unfold exec, dispatch; cbn in *.
    destruct inst; cbn; [|exact Hs].
    unfold installedListener, bind, setVisible, setDeferredPrompt,
      setPromptType, setState; cbn.
    destruct mt; cbn; [discriminate | exact Hs].
  - unfold exec, dispatch. destruct (render s); [|exact Hs].
    open_session s. unfold signalled in *.
    unfold handleDismiss, bind, setVisible, setState; cbn in *.
    destruct mt; exact Hs.
  - unfold exec, dispatch. destruct (render s) as [[]|]; try exact Hs.
    unfold handleInstall. destruct (deferredPrompt (hooks s)); exact Hs.
  - open_session s. unfold signalled in *. unfold exec, dispatch; cbn in *.
    destruct aw; cbn; [|exact Hs].
    unfold handleInstallResume, bind, setVisible, setDeferredPrompt,
      setPromptType, setState, ret; cbn.
    destruct a, mt; cbn; try exact Hs. discriminate.
  - change (exec (dispatch (Elapse dt)) s) with (exec (elapse dt) s).
    rewrite exec_elapse. destruct (dt <? 0); [exact Hs|].
    assert (Hfired : signalled (exec (fire_all
              (expired (now (window s) + dt) (timers (window s)))) s)).
    { apply (fire_all_ind signalled (fun _ => True)).
      - intros s' tm H1 _. now apply signalled_fire_timer.
      - generalize (expired (now (window s) + dt) (timers (window s))).
        intros l. induction l; constructor; auto.
      - exact Hs. }
    revert Hfired. generalize (exec (fire_all
      (expired (now (window s) + dt) (timers (window s)))) s) as s'.
    intros s'. open_session s'. unfold signalled. cbn. auto.
  - open_session s. unfold signalled in *. unfold exec, dispatch, unmount;
      cbn in *.
    destruct mt; cbn; [|exact Hs].
    destruct hc; [destruct ft|]; cbn; exact Hs.
Qed.

Lemma signalled_run (evs : list Event) (s : Session) :
  signalled s -> signalled (run s evs).
Proof.
  revert s; induction evs as [|ev evs IH]; intros s H; [exact H|].
  apply IH, signalled_step, H.
Qed.

Lemma mount_signalled (e : Env) (t : Z) (ls : gmap string string) :
  signalled (mount e t ls).
Proof.
  destruct (mount_paths e t ls)
    as [[cs ->] | [(_&_&Hg&->) | (_&_&_&->)]]; unfold signalled; cbn;
    try discriminate.
  intros Hn. rewrite Hn in Hg. discriminate.
Qed.

Lemma install_dialog_facts (s : Session) (h : Handle) :
  render s = Some Native ->
  deferredPrompt (hooks s) = Some h ->
  mounted (run s [ClickInstall; UserChoice true]) = true /\
  promptType (hooks (run s [ClickInstall; UserChoice true])) = PNone /\
  nativeFired (closure (run s [ClickInstall; UserChoice true]))
    = nativeFired (closure s) /\
  timers (window (run s [ClickInstall; UserChoice true])) = timers (window s).
Proof.
  intros Hr Hh. destruct (render_shown s Native Hr) as (Hm & Hv & Hp).
  cbn [run fold_left]. unfold step at 2 4 6 8. unfold exec, dispatch.
  rewrite Hr. unfold handleInstall. rewrite Hh.
  open_session s. cbn in *. subst mt vis pt dp.
  unfold step, exec, dispatch; cbn. repeat split.
Qed.

(** X10. Once the user has accepted the installation in the browser dialog,
    no card is shown for the rest of the session as long as the browser does
    not signal availability again: pending display delays show nothing and
    the fallback timeout, disarmed by the signal that brought the native
    card, does nothing. *)
Theorem accepted_install_is_final (e : Env) (t : Z) (ls : gmap string string)
    (evs evs' : list Event) (h : Handle) :
  render (run (mount e t ls) evs) = Some Native ->
  deferredPrompt (hooks (run (mount e t ls) evs)) = Some h ->
  forallb (fun ev => negb (is_signal ev)) evs' = true ->
  render (run (mount e t ls) (evs ++ [ClickInstall; UserChoice true] ++ evs'))
  = None.
Proof.
  intros Hr Hh Hevs'.
  pose proof (signalled_run evs _ (mount_signalled e t ls)) as Hsig.
  rewrite run_app, run_app.
  destruct (install_dialog_facts (run (mount e t ls) evs) h Hr Hh)
    as (Hm & Hp & Hnf & Htm).
  apply settled_render, settled_run; [exact Hevs'|].
  unfold settled. split; [now right|]. left.
  rewrite Hnf. apply Hsig. now destruct (render_shown _ _ Hr) as (_ & _ & ->).
Qed.

Lemma accepted_install_is_final_witness :
  render (run (mount (browser ua_android_chrome) 0 ∅)
            ([BeforeInstallPrompt 5%nat; Elapse 1500]
             ++ [ClickInstall; UserChoice true] ++ [Elapse 5000; ClickInstall]))
  = None.
Proof.
  apply (accepted_install_is_final _ _ _ _ _ 5%nat); vm_compute; reflexivity.
Defined.

(** *** A dismissal on the in-app and iOS path *)

Lemma pending_dismissed (p : PromptType) (d dt : Z) (s : Session) :
  guided p = true ->
  pending p d s ->
  d <= now (window s) + dt ->
  quiet (step (step s (Elapse dt)) ClickDismiss).
Proof.
  open_session s. unfold pending. cbn [hooks closure window mounted
    awaitingChoice timers now onBeforeInstallPrompt onAppInstalled].
  intros Hg ([= -> -> ->] & (id & ->) & Hnow & -> & -> & -> & ->) Hdt.
  unfold step, exec, dispatch, elapse. cbn.
  destruct (dt <? 0) eqn:Hneg; [apply Z.ltb_lt in Hneg; lia|].
  unfold expired. cbn.
  destruct (d <=? nw + dt) eqn:Hle; [|apply Z.leb_gt in Hle; lia].
  cbn. rewrite Nat.eqb_refl. cbn.
  destruct p; try discriminate; unfold quiet; cbn; repeat split.
Qed.

(** X17. On the in-app and iOS classifications a dismissed card does not
    come back during the session: the component has no listener and no
    timeout left that could show it again. *)
Theorem guided_dismissal_lasts (e : Env) (t : Z) (ls : gmap string string)
    (evs evs' : list Event) (dt : Z) :
  isStandaloneEnv e = false ->
  cooling t (ls !! DISMISS_KEY) = false ->
  guided (Detected.promptType (detectPlatform e)) = true ->
  forallb (fun ev => negb (is_unmount ev)) evs = true ->
  elapsed evs < 2500 ->
  2500 <= elapsed evs + dt ->
  render (run (mount e t ls) (evs ++ [Elapse dt; ClickDismiss] ++ evs'))
  = None.
Proof.
  intros Hs Hc Hg Hu Hlt Hdt. rewrite (mount_guided e t ls Hs Hc Hg).
  set (p := Detected.promptType (detectPlatform e)) in *.
  assert (Hp : pending p (t + 2500) (guided_session t ls p)).
  { unfold pending, guided_session; cbn. repeat split; [eauto | lia]. }
  assert (Hn0 : now (window (guided_session t ls p)) = t) by reflexivity.
  destruct (pending_run p (t + 2500) evs (guided_session t ls p) Hu
              ltac:(lia) Hp) as [Hp' Hn].
  rewrite run_app, run_app. cbn [run fold_left].
  apply quiet_render, quiet_run.
  apply (pending_dismissed p (t + 2500)); [exact Hg | exact Hp' | lia].
Qed.

Lemma guided_dismissal_lasts_witness :
  render (run (mount (browser ua_iphone_chrome) 0 ∅)
            ([Elapse 2000] ++ [Elapse 500; ClickDismiss]
             ++ [Elapse 60000; BeforeInstallPrompt 1%nat; Elapse 60000]))
  = None.
Proof.
  apply guided_dismissal_lasts; vm_compute; reflexivity || discriminate.
Defined.

End Paths.

(** ** The language store, further properties *)

Section Dictionary.

Import I18n.

Lemma dom_translations (lang : Language) :
  dom (translations lang) = list_to_set keys.
Proof. destruct lang; vm_compute; reflexivity. Qed.

Lemma translations_lookup (lang : Language) (key : string) :
  is_Some (translations lang !! key) <-> In key keys.
Proof.
  rewrite <- elem_of_dom, dom_translations, elem_of_list_to_set.
  apply list_elem_of_In.
Qed.

(** X11. The two dictionaries have exactly the same keys, those of the key
    set: a text exists for a key in one language if and only if it exists in
    the other. *)
Theorem translations_same_keys (key : string) :
  (is_Some (translations en !! key) <-> is_Some (translations zh !! key)) /\
  (is_Some (translations en !! key) <-> In key keys).
Proof.
  rewrite !translations_lookup. tauto.
Qed.

(** Away from the names of [Object.prototype] the two lookups agree. *)
Lemma runtime_t_agrees (s : Store) (key : string) :
  Runtime.inherited key = false ->
  Runtime.t s key = Runtime.VString (t s key).
Proof.
  intros Hi. unfold Runtime.t, t, Runtime.get. rewrite Hi.
  generalize (translations (language (state s)) !! key)
             (translations en !! key).
  intros [[|c v]|] [[|c' v']|]; reflexivity.
Qed.

(** So they do on the key set. *)
Lemma keys_not_inherited (key : string) :
  In key keys -> Runtime.inherited key = false.
Proof.
  intros H. unfold keys in H. cbn [In] in H.
  repeat (destruct H as [<- | H]; [reflexivity|]). destruct H.
Qed.

(** X12. For a string that is not a key of the dictionaries the lookup
    answers the string itself, whatever the language, unless the string
    names a member of [Object.prototype]: then the property read finds that
    member, and the lookup answers it instead of a text. *)
Theorem t_unknown_key (s : Store) (key : string) :
  ~ In key keys ->
  Runtime.t s key =
  if Runtime.inherited key then Runtime.VInherited key
  else Runtime.VString key.
Proof.
  intros Hk. unfold Runtime.t, Runtime.get.
  assert (Hnone : forall lang, translations lang !! key = None).
  { intros lang. apply eq_None_not_Some. now rewrite translations_lookup. }
  rewrite (Hnone (language (state s))), (Hnone en).
  now destruct (Runtime.inherited key).
Qed.

Lemma t_unknown_key_witness :
  Runtime.t {| state := {| language := zh |}; storage := ∅ |} "score"
  = if Runtime.inherited "score" then Runtime.VInherited "score"
    else Runtime.VString "score".
Proof.
  apply t_unknown_key. unfold keys. cbn [In].
  intros H. repeat (destruct H as [H | H]; [discriminate H|]). exact H.
Defined.

Example t_of_toString :
  Runtime.t {| state := init; storage := ∅ |} "toString"
  = Runtime.VInherited "toString".
Proof. vm_compute. reflexivity. Qed.

Example t_of_score :
  Runtime.t {| state := init; storage := ∅ |} "score"
  = Runtime.VString "score".
Proof. vm_compute. reflexivity. Qed.

(** With inherited members too, the lookup never answers the empty string
    for a key that is not empty. *)
Lemma runtime_t_never_blank (s : Store) (key : string) :
  key <> EmptyString -> Runtime.t s key <> Runtime.VString EmptyString.
Proof.
  intros Hk. unfold Runtime.t, Runtime.get.
  generalize (translations (language (state s)) !! key)
             (translations en !! key).
  intros [[|c v]|] [[|c' v']|]; destruct (Runtime.inherited key);
    destruct key; cbn; congruence.
Qed.

(** X13. The lookup never answers the empty string for a key that is not
    itself empty: an empty entry is skipped like a missing one. *)
Theorem t_never_blank (s : Store) (key : string) :
  key <> EmptyString -> t s key <> EmptyString.
Proof.
  intros Hk. unfold t.
  generalize (translations (language (state s)) !! key)
             (translations en !! key).
  intros [[|c v]|] [[|c' v']|]; destruct key; cbn; congruence.
Qed.

Lemma t_never_blank_witness :
  t {| state := init; storage := ∅ |} "nothing here" <> EmptyString.
Proof. apply t_never_blank. discriminate. Defined.

(** X14. Of two language switches in a row only the last counts, for the
    store and for what is persisted; a switch writes the store's own storage
    entry and no other. *)
Theorem setLanguage_last_wins (a b : Language) (s : Store) :
  setLanguage a (setLanguage b s) = setLanguage a s /\
  forall k, k <> name -> storage (setLanguage a s) !! k = storage s !! k.
Proof.
  split.
  - unfold setLanguage. cbn. f_equal. apply insert_insert_eq.
  - intros k Hk. unfold setLanguage. cbn. now apply lookup_insert_ne.
Qed.

End Dictionary.

(** ** The simpler revision of the component *)

Section LegacyFacts.

Import Legacy.

Ltac open_legacy s := destruct s as [[dp sp ins] bip inst tms nw mt aw].

Lemma show_frame (s : Session) :
  isInstalled (hooks (setShowPrompt true s)) = isInstalled (hooks s) /\
  deferredPrompt (hooks (setShowPrompt true s)) = deferredPrompt (hooks s) /\
  onBeforeInstallPrompt (setShowPrompt true s) = onBeforeInstallPrompt s /\
  onAppInstalled (setShowPrompt true s) = onAppInstalled s /\
  timers (setShowPrompt true s) = timers s /\
  now (setShowPrompt true s) = now s /\
  mounted (setShowPrompt true s) = mounted s /\
  awaitingChoice (setShowPrompt true s) = awaitingChoice s /\
  (mounted s = true -> showPrompt (hooks (setShowPrompt true s)) = true) /\
  (mounted s = false -> hooks (setShowPrompt true s) = hooks s).
Proof.
  open_legacy s. unfold setShowPrompt, setState, with_hooks. cbn.
  destruct mt; cbn; repeat split; auto; discriminate.
Qed.

(** What a batch of firing timeouts changes: the card flag, and only when
    the component is mounted and the batch is not empty. *)
Lemma fire_batch (l : list Z) (s : Session) :
  isInstalled (hooks (fold_left (fun s _ => setShowPrompt true s) l s))
    = isInstalled (hooks s) /\
  deferredPrompt (hooks (fold_left (fun s _ => setShowPrompt true s) l s))
    = deferredPrompt (hooks s) /\
  onBeforeInstallPrompt (fold_left (fun s _ => setShowPrompt true s) l s)
    = onBeforeInstallPrompt s /\
  onAppInstalled (fold_left (fun s _ => setShowPrompt true s) l s)
    = onAppInstalled s /\
  timers (fold_left (fun s _ => setShowPrompt true s) l s) = timers s /\
  now (fold_left (fun s _ => setShowPrompt true s) l s) = now s /\
  mounted (fold_left (fun s _ => setShowPrompt true s) l s) = mounted s /\
  awaitingChoice (fold_left (fun s _ => setShowPrompt true s) l s)
    = awaitingChoice s /\
  (mounted s = true -> l <> [] ->
   showPrompt (hooks (fold_left (fun s _ => setShowPrompt true s) l s))
   = true) /\
  (mounted s = false ->
   hooks (fold_left (fun s _ => setShowPrompt true s) l s) = hooks s).
Proof.
  revert s. induction l as [|d l IH]; intros s; cbn [fold_left].
  - repeat split; congruence.
  - destruct (show_frame s) as (S1 & S2 & S3 & S4 & S5 & S6 & S7 & S8 & S9 & S10).
    destruct (IH (setShowPrompt true s))
      as (I1 & I2 & I3 & I4 & I5 & I6 & I7 & I8 & I9 & I10).
    repeat split; try congruence.
    + intros Hm _. destruct l as [|d' l].
      * cbn. now apply S9.
      * apply I9; [congruence | discriminate].
    + intros Hm. rewrite I10 by congruence. now apply S10.
Qed.

Lemma over_render (s : Session) : over s -> render s = false.
Proof.
  unfold over, render. intros [-> | ->]; [|reflexivity].
  now rewrite andb_false_r.
Qed.

Lemma over_step (s : Session) (ev : Event) : over s -> over (step s ev).
Proof.
  intros Ho. destruct ev as [h| | | |a|dt|]; cbn [step].
  - open_legacy s. unfold over in *. cbn in *.
    destruct bip; [|exact Ho].
    unfold handler, setDeferredPrompt, setState, with_hooks; cbn.
    destruct mt; cbn; exact Ho.
  - open_legacy s. unfold over in *. cbn in *.
    destruct inst; [|exact Ho].
    unfold installedListener, setDeferredPrompt, setShowPrompt,
      setIsInstalled, setState, with_hooks; cbn.
    destruct mt; cbn; auto.
  - now rewrite (over_render s Ho).
  - now rewrite (over_render s Ho).
  - open_legacy s. unfold over in *. cbn in *.
    destruct aw; [|exact Ho].
    unfold handleInstallResume, setDeferredPrompt, setShowPrompt,
      setIsInstalled, setState, with_hooks; cbn.
    destruct a, mt; cbn; auto.
  - unfold elapse. destruct (dt <? 0); [exact Ho|].
    destruct (fire_batch
                (List.filter (fun d => d <=? now s + dt) (timers s)) s)
      as (H1 & _ & _ & _ & _ & _ & H7 & _).
    unfold over in *. cbn in *. now rewrite H1, H7.
  - open_legacy s. unfold over, unmount in *. cbn in *.
    destruct mt; cbn; auto.
Qed.

Lemma over_run (evs : list Event) (s : Session) : over s -> over (run s evs).
Proof.
  revert s; induction evs as [|ev evs IH]; intros s H; [exact H|].
  apply IH, over_step, H.
Qed.

Lemma live_step (s : Session) (ev : Event) : live s -> live (step s ev).
Proof.
  intros Hl. destruct ev as [h| | | |a|dt|]; cbn [step].
  - open_legacy s. unfold live in *. cbn in *.
    destruct bip; [|exact Hl].
    unfold handler, setDeferredPrompt, setState, with_hooks; cbn.
    destruct mt; cbn; exact Hl.
  - open_legacy s. unfold live in *. cbn in *.
    destruct inst; [|exact Hl].
    unfold installedListener, setDeferredPrompt, setShowPrompt,
      setIsInstalled, setState, with_hooks; cbn.
    destruct mt; cbn; auto.
  - destruct (render s); [|exact Hl].
    open_legacy s. unfold live, handleDismiss, setShowPrompt, setState,
      with_hooks in *. cbn in *. destruct mt; cbn; exact Hl.
  - destruct (render s); [|exact Hl].
    unfold handleInstall. destruct (deferredPrompt (hooks s)); exact Hl.
  - open_legacy s. unfold live in *. cbn in *.
    destruct aw; [|exact Hl].
    unfold handleInstallResume, setDeferredPrompt, setShowPrompt,
      setIsInstalled, setState, with_hooks; cbn.
    destruct a, mt; cbn; auto.
  - unfold elapse. destruct (dt <? 0); [exact Hl|].
    destruct (fire_batch
                (List.filter (fun d => d <=? now s + dt) (timers s)) s)
      as (H1 & _ & H3 & H4 & _ & _ & H7 & _).
    unfold live in *. cbn in *. now rewrite H1, H3, H4, H7.
  - open_legacy s. unfold live, unmount in *. cbn in *.
    destruct mt; cbn; [discriminate | exact Hl].
Qed.

Lemma live_run (evs : list Event) (s : Session) : live s -> live (run s evs).
Proof.
  revert s; induction evs as [|ev evs IH]; intros s H; [exact H|].
  apply IH, live_step, H.
Qed.

Lemma mount_live (e : Env) (t : Z) : live (mount e t).
Proof.
  unfold live, mount, useEffect. destruct (displayMode e); cbn; auto.
Qed.

Lemma legacy_run_app (s : Session) (evs evs' : list Event) :
  run s (evs ++ evs') = run (run s evs) evs'.
Proof. apply fold_left_app. Qed.

(** X15. In the simpler revision an installation is final: when the page
    starts standalone, and from the moment the browser reports the
    installation complete, the card is never on screen again in the session,
    whatever follows, further availability signals and timeouts included. *)
Theorem legacy_installed_is_final (e : Env) (t : Z) (evs1 evs2 : list Event) :
  (displayMode e = true -> render (run (mount e t) evs1) = false) /\
  render (run (mount e t) (evs1 ++ AppInstalled :: evs2)) = false.
Proof.
  split.
  - intros Hd. apply over_render, over_run. left.
    unfold mount, useEffect. now rewrite Hd.
  - rewrite legacy_run_app.
    change (run ?s (AppInstalled :: evs2)) with (run (step s AppInstalled) evs2).
    apply over_render, over_run.
    pose proof (live_run evs1 _ (mount_live e t)) as Hl.
    revert Hl. generalize (run (mount e t) evs1) as s. clear. intros s.
    open_legacy s. unfold live, over. cbn.
    unfold installedListener, setDeferredPrompt, setShowPrompt,
      setIsInstalled, setState, with_hooks; cbn.
    destruct mt; [|destruct inst; auto].
    intros Hl. destruct (Hl eq_refl) as [-> | [-> ->]]; [|now left].
    left. now destruct inst.
Qed.

(** X16. The simpler revision does not remember a dismissal: after the card
    was dismissed, the next availability signal brings it back 2000 ms
    later. *)
Theorem legacy_dismiss_is_not_remembered (e : Env) (t : Z)
    (evs : list Event) (h : Handle) (dt : Z) :
  render (run (mount e t) evs) = true ->
  2000 <= dt ->
  render (run (mount e t) (evs ++ [ClickDismiss])) = false /\
  render (run (mount e t)
            (evs ++ [ClickDismiss; BeforeInstallPrompt h; Elapse dt])) = true.
Proof.
  intros Hr Hdt. rewrite !legacy_run_app.
  pose proof (live_run evs _ (mount_live e t)) as Hl.
  revert Hr Hl. generalize (run (mount e t) evs) as s. clear e t evs.
  intros s. open_legacy s. unfold live, render. cbn.
  intros Hr Hl. apply andb_true_iff in Hr as [Hr Hi].
  apply andb_true_iff in Hr as [-> ->]. apply negb_true_iff in Hi. subst ins.
  destruct (Hl eq_refl) as [[=] | [-> ->]].
  split; [reflexivity|].
  unfold handleDismiss, handler, setDeferredPrompt, setShowPrompt, setState,
    with_hooks; cbn.
  unfold elapse. cbn. destruct (dt <? 0) eqn:Hneg; [apply Z.ltb_lt in Hneg; lia|].
  match goal with
  | |- context [fold_left _ ?l ?s0] =>
      destruct (fire_batch l s0) as (H1 & _ & _ & _ & _ & _ & H7 & _ & H9 & _)
  end.
  cbn in *. rewrite H1, H7, H9; [reflexivity | reflexivity |].
  rewrite List.filter_app. cbn.
  destruct (nw + 2000 <=? nw + dt) eqn:Hle; [|apply Z.leb_gt in Hle; lia].
  intros Habs. apply app_eq_nil in Habs as [_ [=]].
Qed.

Lemma legacy_dismiss_is_not_remembered_witness :
  render (run (mount (browser ua_desktop_chrome) 0)
            ([BeforeInstallPrompt 1%nat; Elapse 2000] ++ [ClickDismiss]))
  = false /\
  render (run (mount (browser ua_desktop_chrome) 0)
            ([BeforeInstallPrompt 1%nat; Elapse 2000]
             ++ [ClickDismiss; BeforeInstallPrompt 2%nat; Elapse 2000]))
  = true.
Proof.
  apply legacy_dismiss_is_not_remembered; [reflexivity | lia].
Defined.

End LegacyFacts.
